(** * comtrade: a client for the UN Comtrade REST API

    A shallow embedding of [comtrade/util.py] and [comtrade/core.py].

    The Python code talks to four things outside itself: the process
    environment, the local file system, the network and the warning /
    standard-output channels.  They are gathered in one record, [World], and
    every Python function becomes a function in the monad [Py], which threads
    the world and stops at the first raised exception.

    The libraries the code calls (pandas, zipfile) are not part of the
    repository; their operations are the fields of the classes [Tabular] and
    [Archive], so every statement below holds for any implementation of them.

    Text is modelled by [string] (8-bit characters); JSON numbers by [Z]. *)

From Stdlib Require Import ZArith String Ascii List Lia.
From stdpp Require Import base option list strings pretty gmap fin_maps.

Set Warnings "-register-all".

#[global] Arguments String.append !s1 s2 : simpl nomatch.

Open Scope string_scope.
Open Scope Z_scope.

(** ** Python values that cross the boundaries *)

(** The result of [Response.json()]: objects keep the order of their keys,
    a key occurs once. *)
Inductive json : Type :=
| JNull
| JBool (b : bool)
| JNum (z : Z)
| JStr (s : string)
| JArr (items : list json)
| JObj (fields : list (string * json)).

(** Values passed as keyword arguments of a query. *)
Inductive pyval : Type :=
| PyNone
| PyStr (s : string)
| PyInt (z : Z).

(** [**kwargs]: a dict, iterated in insertion order. *)
Definition kwargs : Type := list (string * pyval).

Module Response.
(** A [requests.Response]: [body_json] is what [r.json()] returns, [None]
    when decoding the body raises. *)
Record t : Type := mk {
  status_code : Z;
  content : string;
  body_json : option json;
  url : string
}.

(** [r.ok]: [raise_for_status()] does not raise, that is the status is
    neither a 4xx nor a 5xx. *)
Definition ok (r : t) : bool :=
  negb ((400 <=? status_code r) && (status_code r <? 600)).
End Response.

(** The exceptions the code raises itself or lets through. *)
Inductive exn : Type :=
| ValueError (msg : string)
| TypeError (msg : string)
| KeyError (key : string)
| IndexError (msg : string)
| AttributeError (msg : string)
| AssertionError
| QueryError (msg : string) (response : Response.t)
| JSONDecodeError
| ConnectionError
| BadZipFile
| PandasError.

Inductive Outcome (A : Type) : Type :=
| Ok (a : A)
| Raise (e : exn).
Arguments Ok {A} a.
Arguments Raise {A} e.

(** ** The world *)

Record World : Type := mkWorld {
  environ : gmap string string;
  (** regular files, by path, with their text *)
  files : gmap string string;
  (** what a GET of a URL with query parameters yields; [None] when the
      transport gives up *)
  remote : string -> kwargs -> option Response.t;
  (** the GET requests sent so far, latest first *)
  requested : list (string * kwargs);
  (** [warnings.warn] messages, latest first *)
  warned : list string;
  (** [print] lines, latest first *)
  printed : list string
}.

Definition Py (A : Type) : Type := World -> Outcome A * World.

#[global] Instance py_ret : MRet Py := fun A a w => (Ok a, w).

#[global] Instance py_bind : MBind Py := fun A B f m w =>
  match m w with
  | (Ok a, w') => f a w'
  | (Raise e, w') => (Raise e, w')
  end.

Definition raise {A : Type} (e : exn) : Py A := fun w => (Raise e, w).

Definition py_assert (b : bool) : Py unit :=
  if b then mret tt else raise AssertionError.

Definition warnings_warn (msg : string) : Py unit := fun w =>
  (Ok tt, mkWorld (environ w) (files w) (remote w) (requested w)
            (msg :: warned w) (printed w)).

(** [print(a, b)] writes its arguments separated by one space. *)
Definition print (a b : string) : Py unit := fun w =>
  (Ok tt, mkWorld (environ w) (files w) (remote w) (requested w)
            (warned w) ((a +:+ " " +:+ b) :: printed w)).

Definition os_environ : Py (gmap string string) := fun w => (Ok (environ w), w).

Definition os_path_isfile (fn : string) : Py bool := fun w =>
  (Ok (bool_decide (is_Some (files w !! fn))), w).

(** The contents of a file as they are on disk; the callers test [isfile]
    first. *)
Definition read_bytes (fn : string) : Py string := fun w =>
  match files w !! fn with
  | Some txt => (Ok txt, w)
  | None => (Raise (ValueError ("No such file: " +:+ fn)), w)
  end.

Definition is_cr (c : ascii) : bool := Ascii.eqb c (ascii_of_nat 13).
Definition is_lf (c : ascii) : bool := Ascii.eqb c (ascii_of_nat 10).

(** What text mode does to the line ends when reading: a carriage return
    with a line feed behind it, and a carriage return alone, become one line
    feed. *)
Fixpoint universal_newlines (s : string) : string :=
  match s with
  | EmptyString => EmptyString
  | String c r =>
      if is_cr c then
        match r with
        | EmptyString => String (ascii_of_nat 10) EmptyString
        | String c' r' =>
            if is_lf c' then String (ascii_of_nat 10) (universal_newlines r')
            else String (ascii_of_nat 10) (universal_newlines r)
        end
      else String c (universal_newlines r)
  end.

(** [open(fn, "r").read()] *)
Definition read_text (fn : string) : Py string :=
  txt ← read_bytes fn;
  mret (universal_newlines txt).

Definition write_text (fn txt : string) : Py unit := fun w =>
  (Ok tt, mkWorld (environ w) (<[fn := txt]> (files w)) (remote w)
            (requested w) (warned w) (printed w)).

(** One GET on the wire. *)
Definition http_get (url : string) (params : kwargs) : Py Response.t := fun w =>
  let w' := mkWorld (environ w) (files w) (remote w)
              ((url, params) :: requested w) (warned w) (printed w) in
  match remote w url params with
  | Some r => (Ok r, w')
  | None => (Raise ConnectionError, w')
  end.

Definition net_calls (w : World) : nat := length (requested w).

(** ** Python built-ins used by the code *)

Definition is_sep (c : ascii) : bool := Ascii.eqb c "/"%char.
Definition is_dot (c : ascii) : bool := Ascii.eqb c "."%char.

Definition startswith_sep (s : string) : bool :=
  match s with
  | String c _ => is_sep c
  | EmptyString => false
  end.

Fixpoint endswith_sep (s : string) : bool :=
  match s with
  | EmptyString => false
  | String c EmptyString => is_sep c
  | String _ r => endswith_sep r
  end.

(** [posixpath.join(path, b)] *)
Definition os_path_join (path b : string) : string :=
  if startswith_sep b then b
  else if (String.eqb path "" || endswith_sep path)%bool then path +:+ b
  else path +:+ "/" +:+ b.

Fixpoint basename_from (s cur : string) : string :=
  match s with
  | EmptyString => cur
  | String c r => if is_sep c then basename_from r r else basename_from r cur
  end.

(** [os.path.basename(p)]: what follows the last slash. *)
Definition os_path_basename (p : string) : string := basename_from p p.

(** [s.split(".")[0]]: what precedes the first dot. *)
Fixpoint split_dot_head (s : string) : string :=
  match s with
  | EmptyString => EmptyString
  | String c r => if is_dot c then EmptyString else String c (split_dot_head r)
  end.

(** No slash and no dot: the shape of the table names. *)
Fixpoint plain (s : string) : bool :=
  match s with
  | EmptyString => true
  | String c r => negb (is_sep c) && negb (is_dot c) && plain r
  end.

(** [str.isspace] on the characters below 256. *)
Definition is_space (c : ascii) : bool :=
  let n := nat_of_ascii c in
  ((9 <=? n) && (n <=? 13) || (28 <=? n) && (n <=? 32)
   || (n =? 133) || (n =? 160))%nat%bool.

Fixpoint lstrip (s : string) : string :=
  match s with
  | String c r => if is_space c then lstrip r else s
  | EmptyString => EmptyString
  end.

Fixpoint rstrip (s : string) : string :=
  match s with
  | EmptyString => EmptyString
  | String c r =>
      match rstrip r with
      | EmptyString => if is_space c then EmptyString else String c EmptyString
      | r' => String c r'
      end
  end.

(** Only whitespace. *)
Fixpoint all_space (s : string) : bool :=
  match s with
  | EmptyString => true
  | String c r => is_space c && all_space r
  end.

(** [s.strip()] *)
Definition strip (s : string) : string := rstrip (lstrip s).

(** [s[:n]] on a string. *)
Definition str_prefix (n : nat) (s : string) : string := String.substring 0 n s.

(** [str(x)] for an optional string, as an f-string formats it. *)
Definition fmt_opt (o : option string) : string :=
  match o with
  | Some s => s
  | None => "None"
  end.

(** [token[:n]]: [None] is not subscriptable. *)
Definition slice_to (n : nat) (o : option string) : Py (option string) :=
  match o with
  | Some s => mret (Some (str_prefix n s))
  | None => raise (TypeError "'NoneType' object is not subscriptable")
  end.

(** Truth value of a decoded JSON value ([not x] is its negation). *)
Definition truthy (j : json) : bool :=
  match j with
  | JNull => false
  | JBool b => b
  | JNum z => negb (z =? 0)
  | JStr s => negb (String.eqb s "")
  | JArr l => match l with [] => false | _ => true end
  | JObj l => match l with [] => false | _ => true end
  end.

Fixpoint assoc {A : Type} (k : string) (l : list (string * A)) : option A :=
  match l with
  | [] => None
  | (k', v) :: r => if String.eqb k k' then Some v else assoc k r
  end.

Definition is_str (k : string) (j : json) : bool :=
  match j with
  | JStr s => String.eqb k s
  | _ => false
  end.

Definition is_substring (k s : string) : bool :=
  match String.index 0 k s with
  | Some _ => true
  | None => false
  end.

(** [k in js] *)
Definition py_in (k : string) (js : json) : Py bool :=
  match js with
  | JObj l => mret (match assoc k l with Some _ => true | None => false end)
  | JArr l => mret (existsb (is_str k) l)
  | JStr s => mret (is_substring k s)
  | _ => raise (TypeError "argument is not iterable")
  end.

(** [js[k]] for a string key [k] *)
Definition py_getitem (js : json) (k : string) : Py json :=
  match js with
  | JObj l =>
      match assoc k l with
      | Some v => mret v
      | None => raise (KeyError k)
      end
  | JArr _ => raise (TypeError "list indices must be integers or slices, not str")
  | JStr _ => raise (TypeError "string indices must be integers")
  | _ => raise (TypeError "object is not subscriptable")
  end.

(** [r.json()] *)
Definition response_json (r : Response.t) : Py json :=
  match Response.body_json r with
  | Some js => mret js
  | None => raise JSONDecodeError
  end.

(** ** The libraries the code builds on *)

(** pandas, as far as the code uses it. *)
Class Tabular : Type := {
  DataFrame : Type;
  (** [pd.DataFrame(data)] on decoded JSON; [None] when the constructor
      raises *)
  frame_of_json : json -> option DataFrame;
  (** the text [df.to_csv(path)] writes, row labels in the first column *)
  csv_text : DataFrame -> string;
  (** [pd.read_csv(text, index_col=i)]; [None] when the parser raises *)
  parse_csv : option nat -> string -> option DataFrame
}.

(** zipfile, as far as the code uses it. *)
Class Archive : Type := {
  ZipFile : Type;
  (** [zipfile.ZipFile(io.BytesIO(data))]; [None] when it raises *)
  zip_open : string -> option ZipFile;
  (** [zf.namelist()] *)
  namelist : ZipFile -> list string;
  (** the bytes of [zf.open(name)]; [None] when the name is unknown *)
  zip_read : ZipFile -> string -> option string
}.

(** The host: the home directory and [repr] of a bytes object. *)
Class Host : Type := {
  home : string;
  bytes_repr : string -> string
}.

(** ** comtrade/util.py *)

Module Util.
Section WithLibraries.
Context `{!Tabular, !Host}.

Definition DEFAULT_API_URL : string := "http://comtrade.un.org/api/".
Definition KEY_ENV_NAME : string := "COMTRADE_TOKEN".
Definition KEY_FILE_NAME : string := os_path_join home ".comtraderc".
Definition DATA_DIR : string :=
  os_path_join (os_path_join home ".comtrade") "data".

(** [requests.get(url)] *)
Definition requests_get (url : string) : Py Response.t := http_get url [].

(** [pd.DataFrame(data)] on decoded JSON *)
Definition pd_DataFrame (data : json) : Py DataFrame :=
  match frame_of_json data with
  | Some df => mret df
  | None => raise PandasError
  end.

(** [df.to_csv(path)]; the cache directory is made when the package is
    imported ([__init__.py]). *)
Definition to_csv (df : DataFrame) (path : string) : Py unit :=
  write_text path (csv_text df).

(** [pd.read_csv(fn, index_col=i)] on a path: pandas reads the file itself,
    line ends included. *)
Definition pd_read_csv (fn : string) (index_col : option nat) : Py DataFrame :=
  txt ← read_bytes fn;
  match parse_csv index_col txt with
  | Some df => mret df
  | None => raise PandasError
  end.

Definition update_metadata_file (url : string) : Py DataFrame :=
  print "Updating url " url;;
  r ← requests_get url;
  py_assert (Response.ok r);;
  js ← response_json r;
  more ← py_getitem js "more";
  py_assert (negb (truthy more));;
  results ← py_getitem js "results";
  df ← pd_DataFrame results;
  let fn := os_path_join DATA_DIR (split_dot_head (os_path_basename url)) in
  print "saving to: " fn;;
  to_csv df (fn +:+ ".csv");;
  mret df.

Definition metadata_urls : list string :=
  [ "https://comtrade.un.org/data/cache/reporterAreas.json";
    "https://comtrade.un.org/data/cache/partnerAreas.json";
    "https://comtrade.un.org/data/cache/tradeRegimes.json";
    "https://comtrade.un.org/data/cache/classificationHS.json";
    "https://comtrade.un.org/data/cache/classificationH0.json";
    "https://comtrade.un.org/data/cache/classificationH1.json";
    "https://comtrade.un.org/data/cache/classificationH2.json";
    "https://comtrade.un.org/data/cache/classificationH3.json";
    "https://comtrade.un.org/data/cache/classificationH4.json";
    "https://comtrade.un.org/data/cache/classificationST.json";
    "https://comtrade.un.org/data/cache/classificationS1.json";
    "https://comtrade.un.org/data/cache/classificationS2.json";
    "https://comtrade.un.org/data/cache/classificationS3.json";
    "https://comtrade.un.org/data/cache/classificationS4.json";
    "https://comtrade.un.org/data/cache/classificationBEC.json";
    "https://comtrade.un.org/data/cache/classificationEB02.json" ].

Fixpoint for_each (urls : list string) (body : string -> Py DataFrame) : Py unit :=
  match urls with
  | [] => mret tt
  | u :: rest => body u;; for_each rest body
  end.

Definition update_metadata_files : Py unit :=
  for_each metadata_urls update_metadata_file.

(** The URL [_get_metadata_file] builds for a table name. *)
Definition cache_url (root_name : string) : string :=
  "https://comtrade.un.org/data/cache/" +:+ root_name +:+ ".json".

Definition _get_metadata_file (root_name : string) : Py DataFrame :=
  let fn := os_path_join DATA_DIR (root_name +:+ ".csv") in
  cached ← os_path_isfile fn;
  if (cached : bool) then pd_read_csv fn (Some 0%nat)
  else update_metadata_file (cache_url root_name).

Definition get_partner_areas : Py DataFrame := _get_metadata_file "partnerAreas".
Definition get_reporter_areas : Py DataFrame := _get_metadata_file "reporterAreas".
Definition get_trade_regimes : Py DataFrame := _get_metadata_file "tradeRegimes".

Definition allowed : list string :=
  ["HS"; "H0"; "H1"; "H2"; "H3"; "H4"; "ST"; "S1"; "S2"; "S3"; "S4"; "BEC";
   "EB02"].

Definition get_classification (n : string) : Py DataFrame :=
  if bool_decide (n ∈ allowed) then _get_metadata_file ("classification" +:+ n)
  else raise (ValueError n).

(** The server answers a GET of [url] with a complete table [d]: an ok
    response whose JSON object has a false [more] and [results] that make
    [d]. *)
Definition serves (rem : string -> kwargs -> option Response.t)
    (url : string) (d : DataFrame) : Prop :=
  exists (r : Response.t) (fields : list (string * json))
         (more results : json),
    rem url [] = Some r /\
    Response.ok r = true /\
    Response.body_json r = Some (JObj fields) /\
    assoc "more" fields = Some more /\
    truthy more = false /\
    assoc "results" fields = Some results /\
    frame_of_json results = Some d.

(** The fixed set of table names: the name under which
    [update_metadata_file] stores each of the fixed URLs. *)
Definition table_names : list string :=
  map (fun u => split_dot_head (os_path_basename u)) metadata_urls.

End WithLibraries.
End Util.

(** ** comtrade/core.py *)

Module ComtradeResult.
Record t `{!Tabular} : Type := mk {
  validation : json;
  df : DataFrame;
  url : string
}.
End ComtradeResult.

(** A [requests.Session] with one adapter mounted by the client. *)
Record Session : Type := mkSession {
  mount_prefix : string;
  max_retries : Z
}.

(** What [ComtradeResult] is given as its dataset: decoded JSON records, or a
    table that pandas already parsed. *)
Inductive dataset `{!Tabular} : Type :=
| Records (j : json)
| Frame (d : DataFrame).

Module Comtrade.
(** The attributes of a client.  [sess = None]: the attribute was never set,
    reading it raises [AttributeError]. *)
Record t : Type := mk {
  url : string;
  token : option string;
  sess : option Session
}.

Section Methods.
Context `{!Tabular, !Archive, !Host}.

Definition nl : string := String (ascii_of_nat 10) EmptyString.

Definition key_len : nat := 152.

(** [ComtradeResult(validation, dataset, url)]; [pd.DataFrame] of a table is
    a table with the same contents. *)
Definition ComtradeResult_init (validation : json) (data : dataset)
    (u : string) : Py ComtradeResult.t :=
  d ← match data with
      | Records j => Util.pd_DataFrame j
      | Frame d => mret d
      end;
  mret (ComtradeResult.mk _ validation d u).

(** How far the first block of [__init__] gets: [self.token] after it, or the
    early [return]. *)
Inductive resolution : Type :=
| Resolved (self_token : option string)
| Returned.

Definition __init__ (url : string) (token : option string) (max_retries : Z)
    : Py t :=
  (* self.url = url; self.token = None *)
  res ← match token with
        | None =>
            env ← os_environ;
            match env !! Util.KEY_ENV_NAME with
            | Some v => mret (Resolved (Some v))
            | None =>
                is_file ← os_path_isfile Util.KEY_FILE_NAME;
                if (is_file : bool) then
                  txt ← read_text Util.KEY_FILE_NAME;
                  mret (Resolved (Some (strip txt)))
                else
                  warnings_warn "Comtrade token not detected, usage may be limited.";;
                  mret Returned
            end
        | Some _ => mret (Resolved None)
        end;
  match res with
  | Returned => mret (mk url None None)
  | Resolved self_token =>
      self_token ← match self_token with
                   | Some v =>
                       if (key_len <? String.length v)%nat then
                         v' ← slice_to key_len token;
                         warnings_warn ("API token too long, using first "
                                        +:+ pretty key_len +:+ " characters");;
                         mret v'
                       else if (String.length v <? key_len)%nat then
                         raise (ValueError ("API token " +:+ fmt_opt token
                                            +:+ " too short. Should be "
                                            +:+ pretty key_len +:+ " chars"))
                       else mret (Some v)
                   | None => mret None
                   end;
      mret (mk url self_token (Some (mkSession url max_retries)))
  end.

(** [self.sess] *)
Definition self_sess (self : t) : Py Session :=
  match sess self with
  | Some s => mret s
  | None => raise (AttributeError "'Comtrade' object has no attribute 'sess'")
  end.

(** [sess.get(url, params=params)] *)
Definition session_get (s : Session) (u : string) (params : kwargs) : Py Response.t :=
  http_get u params.

Definition _make_request (self : t) (method : string) (params : kwargs)
    : Py Response.t :=
  let u := url self +:+ method in
  s ← self_sess self;
  r ← session_get s u params;
  if negb (Response.status_code r =? 200) then
    raise (QueryError ("Query failed with status code "
                       +:+ pretty (Response.status_code r) +:+ ". "
                       +:+ "Response from server was" +:+ nl
                       +:+ bytes_repr (Response.content r)) r)
  else mret r.

Fixpoint _validate_kwargs (method : string) (allowed_kwargs : list string)
    (kw : kwargs) : Py unit :=
  match kw with
  | [] => mret tt
  | (k, _) :: rest =>
      if bool_decide (k ∈ allowed_kwargs) then
        _validate_kwargs method allowed_kwargs rest
      else
        raise (ValueError ("Argument " +:+ k +:+ " not allowed for method "
                           +:+ method))
  end.

Definition _validation_dataset_response (r : Response.t) : Py ComtradeResult.t :=
  js ← response_json r;
  has_validation ← py_in "validation" js;
  if negb has_validation then
    raise (QueryError "Query indicates success, but doesn't contain validation" r)
  else
    has_dataset ← py_in "dataset" js;
    if negb has_dataset then
      raise (QueryError "Query indicates success, but doesn't contain dataset" r)
    else
      data ← py_getitem js "dataset";
      if negb (truthy data) then
        raise (QueryError "Query indicates success, but the dataset is empty" r)
      else
        v ← py_getitem js "validation";
        data ← py_getitem js "dataset";
        ComtradeResult_init v (Records data) (Response.url r).

(** The shared tail of [get_subuser_token] and [get_auth_token]. *)
Definition token_of_response (r : Response.t) : Py json :=
  js ← response_json r;
  has_token ← py_in "token" js;
  if (has_token : bool) then py_getitem js "token"
  else raise (QueryError "Query failed to return a valid token" r).

Definition get_subuser_token (self : t) (email : string) : Py json :=
  r ← _make_request self "getSubUserToken" [("email", PyStr email)];
  token_of_response r.

Definition get_auth_token (self : t) (username password : string) : Py json :=
  r ← _make_request self "getAuthToken"
        [("username", PyStr username); ("password", PyStr password)];
  token_of_response r.

Definition get_user_info (self : t) (tok : option string) : Py json :=
  let tok := match tok with None => token self | Some v => Some v end in
  match tok with
  | Some v =>
      r ← _make_request self "getUserInfo" [("token", PyStr v)];
      response_json r
  | None => raise (ValueError "Cannot get user info without a token")
  end.

(** The [allowed_kwargs] of [get], [view], [get_bulk] and [view_bulk]. *)
Definition get_allowed_kwargs : list string :=
  ["r"; "px"; "ps"; "p"; "rg"; "cc"; "max"; "type"; "freq"; "head"; "token";
   "imts"].
Definition view_allowed_kwargs : list string :=
  ["r"; "px"; "ps"; "type"; "freq"; "token"].
Definition get_bulk_allowed_kwargs : list string :=
  ["r"; "px"; "ps"; "type"; "freq"; "token"].
Definition view_bulk_allowed_kwargs : list string :=
  ["r"; "px"; "ps"; "type"; "freq"; "from"; "token"].

Definition get (self : t) (kw : kwargs) : Py ComtradeResult.t :=
  let allowed_kwargs := get_allowed_kwargs in
  _validate_kwargs "get" allowed_kwargs kw;;
  r ← _make_request self "get" kw;
  _validation_dataset_response r.

Definition view (self : t) (kw : kwargs) : Py ComtradeResult.t :=
  let allowed_kwargs := view_allowed_kwargs in
  _validate_kwargs "view" allowed_kwargs kw;;
  r ← _make_request self "refs/da/view" kw;
  _validation_dataset_response r.

Definition opt_val (o : option string) : pyval :=
  match o with
  | Some v => PyStr v
  | None => PyNone
  end.

(** [zf.namelist()[0]] *)
Definition first_name (names : list string) : Py string :=
  match names with
  | n :: _ => mret n
  | [] => raise (IndexError "list index out of range")
  end.

Definition get_bulk (self : t) (type freq ps r px : string)
    (tok : option string) : Py ComtradeResult.t :=
  let allowed_kwargs := get_bulk_allowed_kwargs in
  let tok := match tok with Some v => Some v | None => token self end in
  let kw := [("type", PyStr type); ("freq", PyStr freq); ("ps", PyStr ps);
             ("r", PyStr r); ("px", PyStr px); ("token", opt_val tok)] in
  _validate_kwargs "get_bulk" allowed_kwargs kw;;
  resp ← _make_request self
           ("get/bulk/" +:+ type +:+ "/" +:+ freq +:+ "/" +:+ ps +:+ "/"
            +:+ r +:+ "/" +:+ px)
           [("token", opt_val tok)];
  zf ← match zip_open (Response.content resp) with
       | Some zf => mret zf
       | None => raise BadZipFile
       end;
  name ← first_name (namelist zf);
  entry ← match zip_read zf name with
          | Some data => mret data
          | None => raise (KeyError name)
          end;
  d ← match parse_csv None entry with
      | Some d => mret d
      | None => raise PandasError
      end;
  ComtradeResult_init (JObj []) (Frame d) (Response.url resp).

Definition view_bulk (self : t) (kw : kwargs) : Py ComtradeResult.t :=
  let allowed_kwargs := view_bulk_allowed_kwargs in
  _validate_kwargs "view" allowed_kwargs kw;;
  r ← _make_request self "refs/da/bulk" kw;
  _validation_dataset_response r.

(** [open(KEY_FILE_NAME, "w")] empties the file before [f.write(token)]
    looks at the token. *)
Definition save_subuser_token (self : t) (email : string) : Py unit :=
  tok ← get_subuser_token self email;
  write_text Util.KEY_FILE_NAME "";;
  match tok with
  | JStr v => write_text Util.KEY_FILE_NAME v
  | _ => raise (TypeError "write() argument must be str")
  end;;
  print "Token saved to" Util.KEY_FILE_NAME.

(** The three queries that answer with a JSON envelope, with the name each
    goes by, its allow-list and the path it requests. *)
Inductive query : Type :=
| Get
| View
| ViewBulk.

Definition call (q : query) : t -> kwargs -> Py ComtradeResult.t :=
  match q with
  | Get => get
  | View => view
  | ViewBulk => view_bulk
  end.

Definition method_name (q : query) : string :=
  match q with
  | Get => "get"
  | View => "view"
  | ViewBulk => "view_bulk"
  end.

(** The method name each query hands to [_validate_kwargs]. *)
Definition reported_name (q : query) : string :=
  match q with
  | Get => "get"
  | View => "view"
  | ViewBulk => "view"
  end.

Definition allow_list (q : query) : list string :=
  match q with
  | Get => get_allowed_kwargs
  | View => view_allowed_kwargs
  | ViewBulk => view_bulk_allowed_kwargs
  end.

Definition endpoint (q : query) : string :=
  match q with
  | Get => "get"
  | View => "refs/da/view"
  | ViewBulk => "refs/da/bulk"
  end.

(** Where [__init__] finds a token when it is given none: the environment
    variable, else the stripped text of the token file, read in text mode. *)
Definition looked_up (w : World) (v : string) : Prop :=
  environ w !! Util.KEY_ENV_NAME = Some v \/
  (environ w !! Util.KEY_ENV_NAME = None /\
   exists txt : string,
     files w !! Util.KEY_FILE_NAME = Some txt /\
     strip (universal_newlines txt) = v).

(** The first keyword that is not in a list of names. *)
Fixpoint first_unknown (names : list string) (kw : kwargs) : option string :=
  match kw with
  | [] => None
  | (k, _) :: rest =>
      if bool_decide (k ∈ names) then first_unknown names rest else Some k
  end.

End Methods.
End Comtrade.

(** ** Sample libraries, hosts and worlds

    A small table library (rows of text cells, the first row being the
    header), a one-entry archive format and a host, used to run the model on
    concrete inputs. *)

Module Sample.

Fixpoint split_on (c : ascii) (s : string) : list string :=
  match s with
  | EmptyString => [EmptyString]
  | String a r =>
      if Ascii.eqb a c then EmptyString :: split_on c r
      else match split_on c r with
           | h :: t => String a h :: t
           | [] => [String a EmptyString]
           end
  end.

Definition newline : ascii := ascii_of_nat 10.

Definition label (i : nat) : string :=
  match i with
  | O => ""
  | S j => pretty j
  end.

Definition csv_line (i : nat) (row : list string) : string :=
  String.concat "," (label i :: row).

Definition text_of_rows (rows : list (list string)) : string :=
  String.concat (String newline EmptyString) (imap csv_line rows).

Definition rows_of_text (index_col : option nat) (txt : string)
    : option (list (list string)) :=
  let lines := map (split_on ","%char) (split_on newline txt) in
  Some (match index_col with
        | Some _ => map (drop 1) lines
        | None => lines
        end).

Definition cell (j : json) : option string :=
  match j with
  | JStr v => Some v
  | _ => None
  end.

Definition record_cells (j : json) : option (list string) :=
  match j with
  | JObj fields => mapM (fun kv => cell (snd kv)) fields
  | _ => None
  end.

Definition record_keys (j : json) : list string :=
  match j with
  | JObj fields => map fst fields
  | _ => []
  end.

Definition rows_of_json (j : json) : option (list (list string)) :=
  match j with
  | JArr [] => Some []
  | JArr (first :: rest) =>
      match mapM record_cells (first :: rest) with
      | Some rows => Some (record_keys first :: rows)
      | None => None
      end
  | _ => None
  end.

Definition tabular : Tabular :=
  {| DataFrame := list (list string);
     frame_of_json := rows_of_json;
     csv_text := text_of_rows;
     parse_csv := rows_of_text |}.

(** A second table library, which like pandas guesses the type of a column
    when it reads CSV: a column whose cells are all digits is read as
    numbers. *)
Inductive cell_value : Type :=
| Text (s : string)
| Number (n : N).

Definition is_digit (c : ascii) : bool :=
  let n := nat_of_ascii c in ((48 <=? n) && (n <=? 57))%nat.

Fixpoint only_digits (s : string) : bool :=
  match s with
  | EmptyString => true
  | String c r => is_digit c && only_digits r
  end.

Definition numeric (s : string) : bool :=
  negb (String.eqb s "") && only_digits s.

Fixpoint number_of (acc : N) (s : string) : N :=
  match s with
  | EmptyString => acc
  | String c r => number_of (acc * 10 + (N_of_ascii c - 48))%N r
  end.

Definition shown (v : cell_value) : string :=
  match v with
  | Text t => t
  | Number n => pretty n
  end.

Definition numeric_column (data : list (list string)) (j : nat) : bool :=
  forallb (fun row => match row !! j with
                      | Some c => numeric c
                      | None => true
                      end) data.

Definition typed_row (data : list (list string)) (row : list string)
    : list cell_value :=
  imap (fun j c => if numeric_column data j then Number (number_of 0 c)
                   else Text c) row.

Definition typed_rows_of_text (index_col : option nat) (txt : string)
    : option (list (list cell_value)) :=
  match rows_of_text index_col txt with
  | Some (header :: data) => Some (map Text header :: map (typed_row data) data)
  | Some [] => Some []
  | None => None
  end.

Definition inferring : Tabular :=
  {| DataFrame := list (list cell_value);
     frame_of_json := fun j => option_map (map (map Text)) (rows_of_json j);
     csv_text := fun d => text_of_rows (map (map shown) d);
     parse_csv := typed_rows_of_text |}.

Definition chapters : json :=
  JArr [ JObj [("id", JStr "01"); ("text", JStr "Live animals")];
         JObj [("id", JStr "02"); ("text", JStr "Meat")] ].

Definition chapters_response : Response.t :=
  Response.mk 200 "" (Some (JObj [("more", JBool false); ("results", chapters)]))
    "https://comtrade.un.org/data/cache/classificationH4.json".

(** An archive is the text [name|contents] behind the two bytes [PK]. *)
Definition archive : Archive :=
  {| ZipFile := list (string * string);
     zip_open := fun data =>
       match data with
       | String "P" (String "K" body) =>
           match split_on "|"%char body with
           | [name; contents] => Some [(name, contents)]
           | _ => None
           end
       | _ => None
       end;
     namelist := map fst;
     zip_read := fun zf name => assoc name zf |}.

Definition host : Host :=
  {| home := "/home/user";
     bytes_repr := fun b => "b'" +:+ b +:+ "'" |}.

Fixpoint chars (n : nat) (c : ascii) : string :=
  match n with
  | O => EmptyString
  | S m => String c (chars m c)
  end.

(** Tokens of 3, 152 and 153 characters. *)
Definition short_token : string := "abc".
Definition exact_token : string := chars 152 "k".
Definition long_token : string := chars 153 "k".

Definition no_remote : string -> kwargs -> option Response.t := fun _ _ => None.

(** Nothing in the environment, no files, no network. *)
Definition bare : World := mkWorld ∅ ∅ no_remote [] [] [].

Definition with_env (v : string) : World :=
  mkWorld {[ "COMTRADE_TOKEN" := v ]} ∅ no_remote [] [] [].

Definition with_token_file (txt : string) : World :=
  mkWorld ∅ {[ "/home/user/.comtraderc" := txt ]} no_remote [] [] [].

(** A server that answers every request with the same response. *)
Definition serving (r : Response.t) : World :=
  mkWorld ∅ ∅ (fun _ _ => Some r) [] [] [].

Definition regimes : json :=
  JArr [ JObj [("id", JStr "all"); ("text", JStr "All")];
         JObj [("id", JStr "1"); ("text", JStr "Import")] ].

Definition regimes_response (more : bool) : Response.t :=
  Response.mk 200 "" (Some (JObj [("more", JBool more); ("results", regimes)]))
    "https://comtrade.un.org/data/cache/tradeRegimes.json".

Definition envelope_response (status : Z) (fields : list (string * json))
    : Response.t :=
  Response.mk status "" (Some (JObj fields)) "http://comtrade.un.org/api/get?r=4".

Definition bulk_response : Response.t :=
  Response.mk 200 ("PKdata.csv|a,b" +:+ String newline "1,2" +:+ String newline "3,4")
    None "http://comtrade.un.org/api/get/bulk/C/A/2015/4/HS".

Definition token_response (v : json) : Response.t :=
  Response.mk 200 "" (Some (JObj [("token", v)]))
    "http://comtrade.un.org/api/getSubUserToken?email=a%40b.org".

(** A world whose cache directory holds one table. *)
Definition with_cached (name txt : string) : World :=
  mkWorld ∅ {[ "/home/user/.comtrade/data/" +:+ name +:+ ".csv" := txt ]}
    no_remote [] [] [].

Definition client : Comtrade.t :=
  Comtrade.mk "http://comtrade.un.org/api/" None
    (Some (mkSession "http://comtrade.un.org/api/" 3)).

End Sample.

(** * Properties *)

(** ** The monad *)

Lemma bind_Ok {A B : Type} (m : Py A) (f : A -> Py B) (w w' : World) (a : A) :
  m w = (Ok a, w') -> (m ≫= f) w = f a w'.
Proof. intros E. unfold mbind, py_bind. now rewrite E. Qed.

Lemma bind_Raise {A B : Type} (m : Py A) (f : A -> Py B) (w w' : World) (e : exn) :
  m w = (Raise e, w') -> (m ≫= f) w = (Raise e, w').
Proof. intros E. unfold mbind, py_bind. now rewrite E. Qed.

(** ** Paths *)

Lemma append_assoc (a b c : string) : (a +:+ b) +:+ c = a +:+ b +:+ c.
Proof. induction a as [|x a IH]; simpl; [reflexivity | now f_equal]. Qed.

Lemma basename_from_plain (s sfx cur : string) :
  plain s = true -> basename_from (s +:+ sfx) cur = basename_from sfx cur.
Proof.
  induction s as [|c s IH]; simpl; [reflexivity |].
  intros H. apply andb_prop in H as [H Hs]. apply andb_prop in H as [Hc _].
  apply negb_true_iff in Hc. rewrite Hc. now apply IH.
Qed.

Lemma split_dot_head_plain (s sfx : string) :
  plain s = true -> split_dot_head (s +:+ "." +:+ sfx) = s.
Proof.
  induction s as [|c s IH]; simpl; [reflexivity |].
  intros H. apply andb_prop in H as [H Hs]. apply andb_prop in H as [_ Hd].
  apply negb_true_iff in Hd. rewrite Hd. f_equal. now apply IH.
Qed.

(** The name under which a fetched table is stored is the name it was asked
    under. *)
Lemma stored_name (root : string) :
  plain root = true ->
  split_dot_head (os_path_basename (Util.cache_url root)) = root.
Proof.
  intros H. unfold os_path_basename, Util.cache_url. simpl.
  rewrite (basename_from_plain root ".json" _ H). simpl.
  now apply (split_dot_head_plain root "json").
Qed.

Lemma startswith_sep_append (b sfx : string) :
  startswith_sep sfx = false ->
  startswith_sep (b +:+ sfx) = startswith_sep b.
Proof. destruct b; simpl; [intros ->; reflexivity | reflexivity]. Qed.

Lemma join_append (d b sfx : string) :
  startswith_sep sfx = false ->
  os_path_join d b +:+ sfx = os_path_join d (b +:+ sfx).
Proof.
  intros H. unfold os_path_join. rewrite (startswith_sep_append b sfx H).
  destruct (startswith_sep b); [reflexivity |].
  destruct (String.eqb d "" || endswith_sep d)%bool.
  - apply append_assoc.
  - rewrite append_assoc. simpl. reflexivity.
Qed.

Lemma table_names_plain (root : string) :
  root ∈ Util.table_names -> plain root = true.
Proof.
  intros H. apply list_elem_of_In in H. vm_compute in H.
  repeat (destruct H as [<- | H]; [reflexivity |]). destruct H.
Qed.

(** ** The reference-data cache *)

Section UtilProperties.
Context `{!Tabular, !Host}.

Ltac run :=
  unfold Util.update_metadata_file, Util._get_metadata_file,
    Util.get_classification, Util.requests_get, Util.pd_DataFrame,
    Util.to_csv, Util.pd_read_csv, http_get, print, py_assert,
    response_json, py_getitem, os_path_isfile, read_bytes, write_text,
    raise, mbind, py_bind, mret, py_ret, net_calls.

(** A fetch that the server answers well: one request, one file, the table
    of the [results]. *)
Lemma update_metadata_file_ok (url : string) (w : World) (r : Response.t)
    (fields : list (string * json)) (more results : json) (d : DataFrame) :
  remote w url [] = Some r ->
  Response.ok r = true ->
  Response.body_json r = Some (JObj fields) ->
  assoc "more" fields = Some more ->
  truthy more = false ->
  assoc "results" fields = Some results ->
  frame_of_json results = Some d ->
  exists w',
    Util.update_metadata_file url w = (Ok d, w') /\
    requested w' = (url, []) :: requested w /\
    files w' =
      (<[os_path_join Util.DATA_DIR (split_dot_head (os_path_basename url))
         +:+ ".csv" := csv_text d]> (files w)) /\
    environ w' = environ w /\ remote w' = remote w /\ warned w' = warned w.
Proof.
  intros Hr Hok Hjs Hmore Hfalse Hres Hdf. eexists. run. simpl.
  rewrite Hr, Hok, Hjs, Hmore, Hfalse. simpl. rewrite Hres, Hdf.
  repeat split; reflexivity.
Qed.

(** A table that is on disk is read from there, first column as the row
    labels, without touching the network. *)
Lemma cached_table_read (root txt : string) (w : World) :
  files w !! os_path_join Util.DATA_DIR (root +:+ ".csv") = Some txt ->
  Util._get_metadata_file root w =
    (match parse_csv (Some 0%nat) txt with
     | Some d => Ok d
     | None => Raise PandasError
     end, w).
Proof.
  intros Hf. run. simpl.
  rewrite bool_decide_eq_true_2 by (rewrite Hf; eauto). rewrite Hf.
  destruct (parse_csv (Some 0%nat) txt); reflexivity.
Qed.

(** Without a file the table is fetched. *)
Lemma missing_table_fetched (root : string) (w : World) :
  files w !! os_path_join Util.DATA_DIR (root +:+ ".csv") = None ->
  Util._get_metadata_file root w =
    Util.update_metadata_file (Util.cache_url root) w.
Proof.
  intros Hf. unfold Util._get_metadata_file, os_path_isfile, mbind, py_bind.
  rewrite Hf. rewrite bool_decide_eq_false_2; [reflexivity |].
  intros [x Hx]. discriminate.
Qed.

(** C6, as amended: for a table name of the fixed set that has no local
    file, a fetch that the server answers (no further pages, [results] that
    make a table) sends exactly one request, adds exactly one file, and
    returns the table of the fetched [results]; a second fetch of the same
    name sends no request, leaves the files alone and returns what the table
    library parses from that file, which holds the CSV text of the first
    table, with its first column as row labels.  That is the first table
    again exactly when the library reads back what it wrote. *)
Theorem cache_fetch_once_then_read (root : string) (w : World)
    (r : Response.t) (fields : list (string * json)) (more results : json)
    (d : DataFrame) :
  root ∈ Util.table_names ->
  files w !! os_path_join Util.DATA_DIR (root +:+ ".csv") = None ->
  remote w (Util.cache_url root) [] = Some r ->
  Response.ok r = true ->
  Response.body_json r = Some (JObj fields) ->
  assoc "more" fields = Some more ->
  truthy more = false ->
  assoc "results" fields = Some results ->
  frame_of_json results = Some d ->
  exists w1 : World,
    Util._get_metadata_file root w = (Ok d, w1) /\
    requested w1 = (Util.cache_url root, []) :: requested w /\
    net_calls w1 = S (net_calls w) /\
    files w1 =
      (<[os_path_join Util.DATA_DIR (root +:+ ".csv") := csv_text d]> (files w)) /\
    size (files w1) = S (size (files w)) /\
    Util._get_metadata_file root w1 =
      (match parse_csv (Some 0%nat) (csv_text d) with
       | Some d' => Ok d'
       | None => Raise PandasError
       end, w1) /\
    (Util._get_metadata_file root w1 = (Ok d, w1) <->
     parse_csv (Some 0%nat) (csv_text d) = Some d).
Proof.
  intros Hroot Hnone Hr Hok Hjs Hmore Hfalse Hres Hdf.
  apply table_names_plain in Hroot.
  destruct (update_metadata_file_ok _ w r fields more results d
              Hr Hok Hjs Hmore Hfalse Hres Hdf)
    as (w1 & Hrun & Hreq & Hfiles & _).
  rewrite (stored_name root Hroot) in Hfiles.
  rewrite join_append in Hfiles by reflexivity.
  assert (Hstored : files w1 !! os_path_join Util.DATA_DIR (root +:+ ".csv")
                    = Some (csv_text d)).
  { rewrite Hfiles. apply lookup_insert_eq. }
  exists w1. split; [| split; [| split; [| split; [| split; [| split]]]]].
  - rewrite missing_table_fetched by assumption. exact Hrun.
  - exact Hreq.
  - unfold net_calls. rewrite Hreq. reflexivity.
  - exact Hfiles.
  - rewrite Hfiles. now apply map_size_insert_None.
  - exact (cached_table_read root _ w1 Hstored).
  - rewrite (cached_table_read root _ w1 Hstored).
    destruct (parse_csv (Some 0%nat) (csv_text d)) as [d'|].
    + split; [intros [= ->]; reflexivity | intros [= ->]; reflexivity].
    + split; discriminate.
Qed.

(** C7: when the server answers a reference-table fetch with a true [more]
    flag, [update_metadata_file] raises [AssertionError]; nothing is
    returned and the files are as before.  The same holds for the accessor
    [_get_metadata_file] of a name that has no local file. *)
Theorem more_pages_fail_loudly (url : string) (w : World) (r : Response.t)
    (fields : list (string * json)) (more : json) :
  remote w url [] = Some r ->
  Response.ok r = true ->
  Response.body_json r = Some (JObj fields) ->
  assoc "more" fields = Some more ->
  truthy more = true ->
  (exists w' : World,
     Util.update_metadata_file url w = (Raise AssertionError, w') /\
     files w' = files w) /\
  (forall root : string,
     Util.cache_url root = url ->
     files w !! os_path_join Util.DATA_DIR (root +:+ ".csv") = None ->
     exists w' : World,
       Util._get_metadata_file root w = (Raise AssertionError, w') /\
       files w' = files w).
Proof.
  intros Hr Hok Hjs Hmore Htrue.
  assert (Hrun : exists w' : World,
             Util.update_metadata_file url w = (Raise AssertionError, w') /\
             files w' = files w).
  { eexists. run. simpl. rewrite Hr, Hok, Hjs, Hmore, Htrue. simpl.
    split; reflexivity. }
  split; [exact Hrun |].
  intros root <- Hnone. rewrite missing_table_fetched by assumption.
  exact Hrun.
Qed.

(** C8: a classification code outside the thirteen fixed codes makes the
    accessor raise with the world untouched (no request, no file read or
    written); a code of the set is looked up as the cache entry
    ["classification" + code], so a table already on disk under that name
    is what the accessor returns. *)
Theorem classification_accessor (n : string) (w : World) :
  (n ∉ ["HS"; "H0"; "H1"; "H2"; "H3"; "H4"; "ST"; "S1"; "S2"; "S3"; "S4";
        "BEC"; "EB02"] ->
   Util.get_classification n w = (Raise (ValueError n), w)) /\
  (n ∈ ["HS"; "H0"; "H1"; "H2"; "H3"; "H4"; "ST"; "S1"; "S2"; "S3"; "S4";
        "BEC"; "EB02"] ->
   Util.get_classification n w =
     Util._get_metadata_file ("classification" +:+ n) w /\
   forall (txt : string) (d : DataFrame),
     files w !! os_path_join Util.DATA_DIR ("classification" +:+ n +:+ ".csv")
       = Some txt ->
     parse_csv (Some 0%nat) txt = Some d ->
     Util.get_classification n w = (Ok d, w)).
Proof.
  split; intros Hn.
  - unfold Util.get_classification.
    rewrite bool_decide_eq_false_2 by exact Hn. reflexivity.
  - assert (Hget : Util.get_classification n w =
                   Util._get_metadata_file ("classification" +:+ n) w).
    { unfold Util.get_classification.
      rewrite bool_decide_eq_true_2 by exact Hn. reflexivity. }
    split; [exact Hget |].
    intros txt d Hf Hd. rewrite Hget.
    rewrite (cached_table_read _ txt w).
    + now rewrite Hd.
    + rewrite append_assoc. exact Hf.
Qed.

End UtilProperties.

(** ** Client construction *)

Section InitProperties.
Context `{!Host}.

Ltac run_init :=
  unfold Comtrade.__init__, os_environ, os_path_isfile, read_text, read_bytes,
    warnings_warn, slice_to, raise, mbind, py_bind, mret, py_ret.

(** A token passed to the constructor is never stored, whatever its
    length: no check, no warning, a session. *)
Lemma init_argument_dropped (u v : string) (retries : Z) (w : World) :
  Comtrade.__init__ u (Some v) retries w =
    (Ok (Comtrade.mk u None (Some (mkSession u retries))), w).
Proof. reflexivity. Qed.

(** What the first block of [__init__] leaves in [self.token] when the
    environment or the token file has a token. *)
Lemma init_looked_up (u v : string) (retries : Z) (w : World) :
  Comtrade.looked_up w v ->
  Comtrade.__init__ u None retries w =
    (if (Comtrade.key_len <? String.length v)%nat then
       (Raise (TypeError "'NoneType' object is not subscriptable"), w)
     else if (String.length v <? Comtrade.key_len)%nat then
       (Raise (ValueError ("API token None too short. Should be 152 chars")), w)
     else (Ok (Comtrade.mk u (Some v) (Some (mkSession u retries))), w)).
Proof.
  intros [Henv | (Henv & txt & Hfile & Hstrip)]; run_init; simpl; rewrite Henv.
  - destruct (Comtrade.key_len <? String.length v)%nat; [reflexivity |].
    destruct (String.length v <? Comtrade.key_len)%nat; reflexivity.
  - rewrite bool_decide_eq_true_2 by (rewrite Hfile; eauto).
    rewrite Hfile, Hstrip.
    destruct (Comtrade.key_len <? String.length v)%nat; [reflexivity |].
    destruct (String.length v <? Comtrade.key_len)%nat; reflexivity.
Qed.

(** A looked-up token shorter than 152 characters: [ValueError], no client,
    hence no session. *)
Lemma init_short_looked_up (u v : string) (retries : Z) (w : World) :
  Comtrade.looked_up w v ->
  (String.length v < 152)%nat ->
  exists msg : string,
    Comtrade.__init__ u None retries w = (Raise (ValueError msg), w).
Proof.
  intros Hv Hlen. rewrite (init_looked_up u v retries w Hv).
  unfold Comtrade.key_len.
  destruct (Nat.ltb_spec 152 (String.length v)); [lia |].
  destruct (Nat.ltb_spec (String.length v) 152); [| lia].
  eexists. reflexivity.
Qed.

(** A looked-up token of exactly 152 characters is stored as it is, with a
    session and without a warning. *)
Lemma init_exact_looked_up (u v : string) (retries : Z) (w : World) :
  Comtrade.looked_up w v ->
  String.length v = 152%nat ->
  Comtrade.__init__ u None retries w =
    (Ok (Comtrade.mk u (Some v) (Some (mkSession u retries))), w).
Proof.
  intros Hv Hlen. rewrite (init_looked_up u v retries w Hv).
  unfold Comtrade.key_len. rewrite Hlen. reflexivity.
Qed.

(** A looked-up token longer than 152 characters: the slice is taken of the
    constructor argument, which is [None]. *)
Lemma init_long_looked_up (u v : string) (retries : Z) (w : World) :
  Comtrade.looked_up w v ->
  (152 < String.length v)%nat ->
  Comtrade.__init__ u None retries w =
    (Raise (TypeError "'NoneType' object is not subscriptable"), w).
Proof.
  intros Hv Hlen. rewrite (init_looked_up u v retries w Hv).
  unfold Comtrade.key_len.
  destruct (Nat.ltb_spec 152 (String.length v)); [reflexivity | lia].
Qed.

(** No token anywhere: a warning and the early [return]. *)
Lemma init_no_token (u : string) (retries : Z) (w : World) :
  environ w !! Util.KEY_ENV_NAME = None ->
  files w !! Util.KEY_FILE_NAME = None ->
  Comtrade.__init__ u None retries w =
    (Ok (Comtrade.mk u None None),
     mkWorld (environ w) (files w) (remote w) (requested w)
       ("Comtrade token not detected, usage may be limited." :: warned w)
       (printed w)).
Proof.
  intros Henv Hfile. run_init. simpl. rewrite Henv.
  rewrite bool_decide_eq_false_2; [reflexivity |].
  rewrite Hfile. intros [x Hx]. discriminate.
Qed.

End InitProperties.

(** ** Queries *)

Section QueryProperties.
Context `{!Tabular, !Archive, !Host}.

Lemma validate_first_unknown (method : string) (names : list string)
    (kw : kwargs) (w : World) :
  Comtrade._validate_kwargs method names kw w =
    match Comtrade.first_unknown names kw with
    | None => (Ok tt, w)
    | Some k =>
        (Raise (ValueError ("Argument " +:+ k +:+ " not allowed for method "
                            +:+ method)), w)
    end.
Proof.
  induction kw as [|[k v] kw IH]; simpl; [reflexivity |].
  destruct (bool_decide (k ∈ names)); [exact IH | reflexivity].
Qed.

Lemma first_unknown_None (names : list string) (kw : kwargs) :
  (forall k : string, k ∈ kw.*1 -> k ∈ names) ->
  Comtrade.first_unknown names kw = None.
Proof.
  induction kw as [|[k v] kw IH]; simpl; intros Hall; [reflexivity |].
  rewrite bool_decide_eq_true_2 by (apply Hall; left).
  apply IH. intros k' Hk'. apply Hall. now right.
Qed.

Lemma first_unknown_Some (names : list string) (kw : kwargs) (k : string) :
  k ∈ kw.*1 -> k ∉ names ->
  exists k' : string,
    Comtrade.first_unknown names kw = Some k' /\ k' ∈ kw.*1 /\ k' ∉ names.
Proof.
  induction kw as [|[k0 v] kw IH]; simpl; intros Hin Hout.
  - inversion Hin.
  - destruct (decide (k0 ∈ names)) as [Hk0 | Hk0].
    + rewrite bool_decide_eq_true_2 by exact Hk0.
      apply elem_of_cons in Hin as [-> | Hin]; [contradiction |].
      destruct (IH Hin Hout) as (k' & Hfirst & Hk' & Hnot).
      exists k'. repeat split; [exact Hfirst | now right | exact Hnot].
    + rewrite bool_decide_eq_false_2 by exact Hk0.
      exists k0. repeat split; [left | exact Hk0].
Qed.

(** Each query is its validation, its request and the envelope check; the
    name they report to the validation is [reported_name]. *)
Lemma call_unfold (q : Comtrade.query) (self : Comtrade.t) (kw : kwargs) :
  Comtrade.call q self kw =
    (Comtrade._validate_kwargs (Comtrade.reported_name q)
       (Comtrade.allow_list q) kw;;
     r ← Comtrade._make_request self (Comtrade.endpoint q) kw;
     Comtrade._validation_dataset_response r).
Proof. destruct q; reflexivity. Qed.

(** A keyword outside the allow-list stops any of the three queries before
    a request is sent: the world is as it was, and the error names the first
    such keyword. *)
Lemma unknown_parameter_rejected (q : Comtrade.query) (self : Comtrade.t)
    (kw : kwargs) (k : string) (w : World) :
  k ∈ kw.*1 -> k ∉ Comtrade.allow_list q ->
  exists k' : string,
    k' ∈ kw.*1 /\ (k' ∉ Comtrade.allow_list q) /\
    Comtrade.call q self kw w =
      (Raise (ValueError
                ("Argument " +:+ k' +:+ " not allowed for method "
                 +:+ Comtrade.reported_name q)), w).
Proof.
  intros Hin Hout.
  destruct (first_unknown_Some _ kw k Hin Hout) as (k' & Hfirst & Hk' & Hnot).
  exists k'. repeat split; [exact Hk' | exact Hnot |].
  rewrite call_unfold. unfold mbind at 1. unfold py_bind.
  rewrite validate_first_unknown, Hfirst. reflexivity.
Qed.

(** The request of a client that has a session. *)
Lemma make_request_answered (self : Comtrade.t) (s : Session)
    (method : string) (params : kwargs) (w : World) (r : Response.t) :
  Comtrade.sess self = Some s ->
  remote w (Comtrade.url self +:+ method) params = Some r ->
  Comtrade._make_request self method params w =
    (if Response.status_code r =? 200 then Ok r
     else Raise (QueryError
                   ("Query failed with status code "
                    +:+ pretty (Response.status_code r) +:+ ". "
                    +:+ "Response from server was" +:+ Comtrade.nl
                    +:+ bytes_repr (Response.content r)) r),
     mkWorld (environ w) (files w) (remote w)
       ((Comtrade.url self +:+ method, params) :: requested w)
       (warned w) (printed w)).
Proof.
  intros Hs Hr.
  unfold Comtrade._make_request, Comtrade.self_sess, Comtrade.session_get,
    http_get, raise, mbind, py_bind, mret, py_ret.
  rewrite Hs, Hr. simpl.
  destruct (Response.status_code r =? 200); reflexivity.
Qed.

(** A client without a session cannot send anything. *)
Lemma make_request_without_session (self : Comtrade.t) (method : string)
    (params : kwargs) (w : World) :
  Comtrade.sess self = None ->
  Comtrade._make_request self method params w =
    (Raise (AttributeError "'Comtrade' object has no attribute 'sess'"), w).
Proof.
  intros Hs. unfold Comtrade._make_request, Comtrade.self_sess, mbind, py_bind.
  rewrite Hs. reflexivity.
Qed.

(** The envelope check on a body that is a JSON object. *)
Lemma envelope_checked (r : Response.t) (fields : list (string * json))
    (w : World) :
  Response.body_json r = Some (JObj fields) ->
  Comtrade._validation_dataset_response r w =
    match assoc "validation" fields, assoc "dataset" fields with
    | None, _ =>
        (Raise (QueryError
                  "Query indicates success, but doesn't contain validation" r), w)
    | Some _, None =>
        (Raise (QueryError
                  "Query indicates success, but doesn't contain dataset" r), w)
    | Some v, Some data =>
        if truthy data then
          match frame_of_json data with
          | Some d => (Ok (ComtradeResult.mk _ v d (Response.url r)), w)
          | None => (Raise PandasError, w)
          end
        else
          (Raise (QueryError
                    "Query indicates success, but the dataset is empty" r), w)
    end.
Proof.
  intros Hjs.
  unfold Comtrade._validation_dataset_response, Comtrade.ComtradeResult_init,
    Util.pd_DataFrame, response_json, py_in, py_getitem, raise, mbind,
    py_bind, mret, py_ret.
  rewrite Hjs. simpl.
  destruct (assoc "validation" fields) as [v|]; simpl; [| reflexivity].
  destruct (assoc "dataset" fields) as [data|]; simpl; [| reflexivity].
  destruct (truthy data); simpl; [| reflexivity].
  destruct (frame_of_json data); reflexivity.
Qed.

(** A query with allowed keywords that the server answers: the status
    decides between the error of [_make_request] and the envelope check. *)
Lemma call_answered (q : Comtrade.query) (self : Comtrade.t) (s : Session)
    (kw : kwargs) (w : World) (r : Response.t) :
  Comtrade.sess self = Some s ->
  (forall k : string, k ∈ kw.*1 -> k ∈ Comtrade.allow_list q) ->
  remote w (Comtrade.url self +:+ Comtrade.endpoint q) kw = Some r ->
  exists (msg : string) (w1 : World),
    requested w1 = (Comtrade.url self +:+ Comtrade.endpoint q, kw) :: requested w /\
    Comtrade.call q self kw w =
      (if Response.status_code r =? 200
       then Comtrade._validation_dataset_response r w1
       else (Raise (QueryError msg r), w1)).
Proof.
  intros Hs Hkw Hr. do 2 eexists. split; [| rewrite call_unfold].
  2: { unfold mbind at 1. unfold py_bind at 1.
       rewrite validate_first_unknown, (first_unknown_None _ _ Hkw).
       unfold mbind, py_bind.
       rewrite (make_request_answered self s _ kw w r Hs Hr).
       destruct (Response.status_code r =? 200); reflexivity. }
  reflexivity.
Qed.

(** C4: a query ([get], [view] or [view_bulk]) whose keywords are allowed
    and that the server answers, with a JSON object as the body of a 200
    answer, raises [QueryError] exactly when the status is not 200, or the
    object has no [validation], or no [dataset], or a [dataset] that is
    empty (one that Python counts as false: an empty list, and likewise
    an empty object or string, null, false, zero); and a [QueryError] that
    is raised carries that response. *)
Theorem query_error_iff (q : Comtrade.query) (self : Comtrade.t)
    (s : Session) (kw : kwargs) (w : World) (r : Response.t)
    (fields : list (string * json)) :
  Comtrade.sess self = Some s ->
  (forall k : string, k ∈ kw.*1 -> k ∈ Comtrade.allow_list q) ->
  remote w (Comtrade.url self +:+ Comtrade.endpoint q) kw = Some r ->
  (Response.status_code r = 200 ->
   Response.body_json r = Some (JObj fields)) ->
  ((exists (msg : string) (resp : Response.t),
      (Comtrade.call q self kw w).1 = Raise (QueryError msg resp)) <->
   (Response.status_code r <> 200 \/
    assoc "validation" fields = None \/
    assoc "dataset" fields = None \/
    exists data : json,
      assoc "dataset" fields = Some data /\ truthy data = false)) /\
  (forall (msg : string) (resp : Response.t),
     (Comtrade.call q self kw w).1 = Raise (QueryError msg resp) -> resp = r).
Proof.
  intros Hs Hkw Hr Hbody.
  destruct (call_answered q self s kw w r Hs Hkw Hr) as (msg0 & w1 & _ & Hcall).
  rewrite Hcall. clear Hcall.
  destruct (Z.eqb_spec (Response.status_code r) 200) as [H200 | Hnot].
  - rewrite (envelope_checked r fields w1 (Hbody H200)).
    destruct (assoc "validation" fields) as [v|]; simpl.
    2: { split; [split; [auto | eauto] | intros ? ? [= _ ->]; reflexivity]. }
    destruct (assoc "dataset" fields) as [data|]; simpl.
    2: { split; [split; [auto | eauto] | intros ? ? [= _ ->]; reflexivity]. }
    destruct (truthy data) eqn:Htruthy; simpl.
    2: { split; [split; [eauto 6 | eauto] | intros ? ? [= _ ->]; reflexivity]. }
    split.
    + split.
      * intros (msg & resp & Hraise).
        destruct (frame_of_json data); discriminate.
      * intros [Hne | [Hv | [Hd | (data' & Hd & Hempty)]]];
          try congruence.
    + intros msg resp Hraise. destruct (frame_of_json data); discriminate.
  - simpl. split; [split; [auto | eauto] | intros ? ? [= _ ->]; reflexivity].
Qed.

(** C9: a bulk download that the server answers with status 200 and a body
    that opens as an archive whose first listed entry parses as CSV returns
    a result whose table is that parse, whose validation is the empty
    object and whose URL is the one of the response. *)
Theorem get_bulk_first_entry (self : Comtrade.t) (s : Session)
    (type freq ps r px : string) (tok : option string) (w : World)
    (resp : Response.t) (zf : ZipFile) (name : string) (others : list string)
    (data : string) (d : DataFrame) :
  Comtrade.sess self = Some s ->
  remote w
    (Comtrade.url self +:+ "get/bulk/" +:+ type +:+ "/" +:+ freq +:+ "/"
     +:+ ps +:+ "/" +:+ r +:+ "/" +:+ px)
    [("token",
      Comtrade.opt_val
        (match tok with Some v => Some v | None => Comtrade.token self end))]
    = Some resp ->
  Response.status_code resp = 200 ->
  zip_open (Response.content resp) = Some zf ->
  namelist zf = name :: others ->
  zip_read zf name = Some data ->
  parse_csv None data = Some d ->
  exists w' : World,
    Comtrade.get_bulk self type freq ps r px tok w =
      (Ok (ComtradeResult.mk _ (JObj []) d (Response.url resp)), w') /\
    net_calls w' = S (net_calls w).
Proof.
  intros Hs Hr H200 Hzip Hnames Hentry Hcsv. eexists.
  unfold Comtrade.get_bulk. unfold mbind at 1. unfold py_bind at 1.
  rewrite validate_first_unknown. rewrite first_unknown_None.
  2: { intros k Hk. simpl in Hk.
       repeat (apply elem_of_cons in Hk as [-> | Hk];
               [apply list_elem_of_In; simpl; tauto |]).
       inversion Hk. }
  unfold mbind at 1. unfold py_bind at 1.
  rewrite (make_request_answered self s _ _ w resp Hs Hr), H200. simpl.
  unfold Comtrade.first_name, Comtrade.ComtradeResult_init, mbind, py_bind,
    mret, py_ret.
  rewrite Hzip, Hnames, Hentry, Hcsv. simpl. split; reflexivity.
Qed.

(** C3: [view_bulk] called with a keyword outside its allow-list raises
    before any request, and the error names the keyword, but the method
    it names is [view], not [view_bulk]. *)
Theorem view_bulk_reports_view (self : Comtrade.t) (v : pyval) (w : World) :
  Comtrade.view_bulk self [("foo", v)] w =
    (Raise (ValueError "Argument foo not allowed for method view"), w) /\
  "Argument foo not allowed for method view" <>
    "Argument foo not allowed for method "
    +:+ Comtrade.method_name Comtrade.ViewBulk.
Proof.
  split; [| discriminate].
  destruct (unknown_parameter_rejected Comtrade.ViewBulk self [("foo", v)]
              "foo" w) as (k & Hk & _ & Hcall).
  - left.
  - unfold Comtrade.allow_list, Comtrade.view_bulk_allowed_kwargs.
    intros Hin. apply list_elem_of_In in Hin. simpl in Hin.
    repeat (destruct Hin as [Hin | Hin]; [discriminate |]). exact Hin.
  - simpl in Hk. apply list_elem_of_singleton in Hk as ->. exact Hcall.
Qed.

(** On a list, the emptiness test of the envelope check is emptiness. *)
Lemma truthy_array (items : list json) :
  truthy (JArr items) = false <-> items = [].
Proof. destruct items; simpl; split; congruence. Qed.

(** [get] and [view] name themselves. *)
Lemma get_view_report_own_name (q : Comtrade.query) :
  q <> Comtrade.ViewBulk -> Comtrade.reported_name q = Comtrade.method_name q.
Proof. destruct q; [reflexivity | reflexivity | congruence]. Qed.

End QueryProperties.

(** ** Runs on the sample host *)

Lemma sample_env_looked_up (v : string) :
  @Comtrade.looked_up Sample.host (Sample.with_env v) v.
Proof. left. apply lookup_singleton_eq. Qed.

Lemma sample_file_looked_up (txt : string) :
  @Comtrade.looked_up Sample.host (Sample.with_token_file txt)
    (strip (universal_newlines txt)).
Proof.
  right. split; [apply lookup_empty |].
  exists txt. split; [apply lookup_singleton_eq | reflexivity].
Qed.

Lemma long_token_length : String.length Sample.long_token = 153%nat.
Proof. reflexivity. Qed.

Lemma exact_token_length : String.length Sample.exact_token = 152%nat.
Proof. reflexivity. Qed.

Lemma strip_long_token :
  strip (universal_newlines Sample.long_token) = Sample.long_token.
Proof. vm_compute. reflexivity. Qed.

(** C1: a token of 153 characters is not cut to its first 152 (which would
    be [exact_token]).  Given to the constructor it is dropped: the client
    has no token and no warning was emitted.  Found in the environment or in
    the token file it makes the constructor raise [TypeError]. *)
Theorem long_token_not_truncated (u : string) (retries : Z) :
  @Comtrade.__init__ Sample.host u (Some Sample.long_token) retries Sample.bare
    = (Ok (Comtrade.mk u None (Some (mkSession u retries))), Sample.bare) /\
  @Comtrade.__init__ Sample.host u None retries
     (Sample.with_env Sample.long_token)
    = (Raise (TypeError "'NoneType' object is not subscriptable"),
       Sample.with_env Sample.long_token) /\
  @Comtrade.__init__ Sample.host u None retries
     (Sample.with_token_file Sample.long_token)
    = (Raise (TypeError "'NoneType' object is not subscriptable"),
       Sample.with_token_file Sample.long_token) /\
  str_prefix 152 Sample.long_token = Sample.exact_token.
Proof.
  split; [apply init_argument_dropped |].
  split; [| split; [| vm_compute; reflexivity]].
  - apply (init_long_looked_up u Sample.long_token).
    + apply sample_env_looked_up.
    + rewrite long_token_length. lia.
  - apply (init_long_looked_up u Sample.long_token).
    + rewrite <- strip_long_token at 2. apply sample_file_looked_up.
    + rewrite long_token_length. lia.
Qed.

(** C2: without a token anywhere the constructor warns and returns a client
    that has no session; a query on that client raises [AttributeError]
    and sends nothing. *)
Theorem no_token_no_session (u : string) (retries : Z) :
  let warning := "Comtrade token not detected, usage may be limited." in
  let w' := mkWorld ∅ ∅ Sample.no_remote [] [warning] [] in
  @Comtrade.__init__ Sample.host u None retries Sample.bare
    = (Ok (Comtrade.mk u None None), w') /\
  @Comtrade.get Sample.tabular Sample.host (Comtrade.mk u None None)
     [("r", PyStr "4")] w'
    = (Raise (AttributeError "'Comtrade' object has no attribute 'sess'"), w').
Proof.
  split.
  - apply (@init_no_token Sample.host); apply lookup_empty.
  - reflexivity.
Qed.

(** C5: a token of three characters given to the constructor does not make
    it fail: a client with a session is returned (and no token). *)
Theorem short_argument_accepted (u : string) (retries : Z) :
  @Comtrade.__init__ Sample.host u (Some Sample.short_token) retries Sample.bare
    = (Ok (Comtrade.mk u None (Some (mkSession u retries))), Sample.bare) /\
  (String.length Sample.short_token < 152)%nat.
Proof. split; [apply init_argument_dropped | simpl; lia]. Qed.

(** C10: a token of exactly 152 characters given to the constructor is not
    the token of the client: construction succeeds without a warning and
    with a session, but the stored token is [None]. *)
Theorem exact_argument_not_stored (u : string) (retries : Z) :
  String.length Sample.exact_token = 152%nat /\
  exists c : Comtrade.t,
    @Comtrade.__init__ Sample.host u (Some Sample.exact_token) retries
       Sample.bare = (Ok c, Sample.bare) /\
    Comtrade.sess c = Some (mkSession u retries) /\
    Comtrade.token c = None /\
    Comtrade.token c <> Some Sample.exact_token.
Proof.
  split; [apply exact_token_length |].
  eexists. split; [apply init_argument_dropped |].
  simpl. repeat split. discriminate.
Qed.

(** The tables of the sample library. *)
Lemma sample_regimes_frame :
  Sample.rows_of_json Sample.regimes
    = Some [["id"; "text"]; ["all"; "All"]; ["1"; "Import"]].
Proof. reflexivity. Qed.

Lemma sample_round_trip :
  Sample.rows_of_text (Some 0%nat)
    (Sample.text_of_rows [["id"; "text"]; ["all"; "All"]; ["1"; "Import"]])
    = Some [["id"; "text"]; ["all"; "All"]; ["1"; "Import"]].
Proof. vm_compute. reflexivity. Qed.

Lemma cache_fetch_once_then_read_witness :
  let w := Sample.serving (Sample.regimes_response false) in
  let d := [["id"; "text"]; ["all"; "All"]; ["1"; "Import"]] in
  exists w1 : World,
    @Util._get_metadata_file Sample.tabular Sample.host "tradeRegimes" w
      = (Ok d, w1) /\
    requested w1 = [("https://comtrade.un.org/data/cache/tradeRegimes.json", [])] /\
    files w1 = {[ "/home/user/.comtrade/data/tradeRegimes.csv" :=
                  Sample.text_of_rows d ]} /\
    @Util._get_metadata_file Sample.tabular Sample.host "tradeRegimes" w1
      = (Ok d, w1).
Proof.
  intros w d.
  destruct (@cache_fetch_once_then_read Sample.tabular Sample.host
              "tradeRegimes" w (Sample.regimes_response false)
              [("more", JBool false); ("results", Sample.regimes)]
              (JBool false) Sample.regimes d)
    as (w1 & H1 & Hreq & _ & Hfiles & _ & _ & Hback).
  - apply list_elem_of_In. vm_compute. tauto.
  - apply lookup_empty.
  - reflexivity.
  - reflexivity.
  - reflexivity.
  - reflexivity.
  - reflexivity.
  - reflexivity.
  - exact sample_regimes_frame.
  - exists w1. repeat split.
    + exact H1.
    + exact Hreq.
    + rewrite Hfiles. reflexivity.
    + apply Hback. exact sample_round_trip.
Defined.

(** C6, as first stated, fails: with a table library that, like pandas,
    reads a column of digits as numbers, the table fetched for
    [classificationH4] has the codes ["01"] and ["02"] as text, and the
    second fetch, read from the file without a request, has the numbers 1
    and 2 in their place. *)
Lemma reread_table_differs :
  let w := Sample.serving Sample.chapters_response in
  let first := [[Sample.Text "id"; Sample.Text "text"];
                [Sample.Text "01"; Sample.Text "Live animals"];
                [Sample.Text "02"; Sample.Text "Meat"]] in
  let second := [[Sample.Text "id"; Sample.Text "text"];
                 [Sample.Number 1; Sample.Text "Live animals"];
                 [Sample.Number 2; Sample.Text "Meat"]] in
  exists w1 : World,
    @Util._get_metadata_file Sample.inferring Sample.host "classificationH4" w
      = (Ok first, w1) /\
    net_calls w1 = 1%nat /\
    @Util._get_metadata_file Sample.inferring Sample.host "classificationH4" w1
      = (Ok second, w1) /\
    first <> second.
Proof.
  intros w first second.
  destruct (@update_metadata_file_ok Sample.inferring Sample.host
              (@Util.cache_url "classificationH4") w Sample.chapters_response
              [("more", JBool false); ("results", Sample.chapters)]
              (JBool false) Sample.chapters first
              eq_refl eq_refl eq_refl eq_refl eq_refl eq_refl eq_refl)
    as (w1 & Hrun & Hreq & Hfiles & _).
  exists w1. split; [| split; [| split]].
  - rewrite (@missing_table_fetched Sample.inferring Sample.host)
      by apply lookup_empty.
    exact Hrun.
  - unfold net_calls. rewrite Hreq. reflexivity.
  - rewrite (@cached_table_read Sample.inferring Sample.host
               "classificationH4"
               (@csv_text Sample.inferring first) w1).
    + vm_compute. reflexivity.
    + rewrite Hfiles. apply lookup_insert_eq.
  - discriminate.
Qed.

Lemma more_pages_fail_loudly_witness :
  exists w' : World,
    @Util.update_metadata_file Sample.tabular Sample.host
       "https://comtrade.un.org/data/cache/tradeRegimes.json"
       (Sample.serving (Sample.regimes_response true))
      = (Raise AssertionError, w') /\
    files w' = ∅.
Proof.
  apply (proj1 (@more_pages_fail_loudly Sample.tabular Sample.host
                  "https://comtrade.un.org/data/cache/tradeRegimes.json"
                  (Sample.serving (Sample.regimes_response true))
                  (Sample.regimes_response true)
                  [("more", JBool true); ("results", Sample.regimes)]
                  (JBool true) eq_refl eq_refl eq_refl eq_refl eq_refl)).
Defined.

Lemma classification_accessor_witness :
  @Util.get_classification Sample.tabular Sample.host "ZZ" Sample.bare
    = (Raise (ValueError "ZZ"), Sample.bare) /\
  @Util.get_classification Sample.tabular Sample.host "HS" Sample.bare
    = @Util._get_metadata_file Sample.tabular Sample.host "classificationHS"
        Sample.bare.
Proof.
  split.
  - apply (proj1 (@classification_accessor Sample.tabular Sample.host "ZZ"
                    Sample.bare)).
    intros Hin. apply list_elem_of_In in Hin. simpl in Hin.
    repeat (destruct Hin as [Hin | Hin]; [discriminate |]). exact Hin.
  - apply (proj2 (@classification_accessor Sample.tabular Sample.host "HS"
                    Sample.bare)).
    left.
Defined.

Lemma query_error_iff_witness :
  let r := Sample.envelope_response 200
             [("validation", JObj []); ("dataset", JArr [])] in
  exists (msg : string) (resp : Response.t),
    (@Comtrade.get Sample.tabular Sample.host Sample.client
       [("r", PyStr "4")] (Sample.serving r)).1
      = Raise (QueryError msg resp) /\ resp = r.
Proof.
  intros r.
  destruct (@query_error_iff Sample.tabular Sample.host Comtrade.Get
              Sample.client (mkSession "http://comtrade.un.org/api/" 3)
              [("r", PyStr "4")] (Sample.serving r) r
              [("validation", JObj []); ("dataset", JArr [])])
    as [[_ Hraise] Hresp].
  - reflexivity.
  - intros k Hk. simpl in Hk. apply list_elem_of_singleton in Hk as ->.
    left.
  - reflexivity.
  - reflexivity.
  - destruct Hraise as (msg & resp & Hq).
    + right. right. right. exists (JArr []). split; reflexivity.
    + exists msg, resp. split; [exact Hq | exact (Hresp msg resp Hq)].
Defined.

Lemma get_bulk_first_entry_witness :
  exists w' : World,
    @Comtrade.get_bulk Sample.tabular Sample.archive Sample.host Sample.client
       "C" "A" "2015" "4" "HS" None (Sample.serving Sample.bulk_response)
      = (Ok (@ComtradeResult.mk Sample.tabular (JObj [])
               [["a"; "b"]; ["1"; "2"]; ["3"; "4"]]
               "http://comtrade.un.org/api/get/bulk/C/A/2015/4/HS"), w') /\
    net_calls w' = 1%nat.
Proof.
  apply (@get_bulk_first_entry Sample.tabular Sample.archive Sample.host
           Sample.client (mkSession "http://comtrade.un.org/api/" 3)
           "C" "A" "2015" "4" "HS" None (Sample.serving Sample.bulk_response)
           Sample.bulk_response
           [("data.csv", "a,b" +:+ String Sample.newline "1,2"
                         +:+ String Sample.newline "3,4")]
           "data.csv" []
           ("a,b" +:+ String Sample.newline "1,2"
            +:+ String Sample.newline "3,4")
           [["a"; "b"]; ["1"; "2"]; ["3"; "4"]]);
    reflexivity.
Defined.

(** * Further properties *)

(** ** The reference-data cache, continued *)

Section CacheProperties.
Context `{!Tabular, !Host}.

Ltac run_util :=
  unfold Util.update_metadata_file, Util._get_metadata_file,
    Util.requests_get, Util.pd_DataFrame, Util.to_csv, Util.pd_read_csv,
    http_get, print, py_assert, response_json, py_getitem, os_path_isfile,
    read_bytes, write_text, raise, mbind, py_bind, mret, py_ret.

(** X1: whatever the server does, [update_metadata_file] sends exactly one
    request, and it writes a file only when it returns a table: the file
    holds that table; when it raises, the files are as before. *)
Theorem fetch_one_request_write_on_success (url : string) (w : World) :
  requested (Util.update_metadata_file url w).2 = (url, []) :: requested w /\
  match (Util.update_metadata_file url w).1 with
  | Ok d =>
      files (Util.update_metadata_file url w).2 =
        <[os_path_join Util.DATA_DIR (split_dot_head (os_path_basename url))
          +:+ ".csv" := csv_text d]> (files w)
  | Raise _ => files (Util.update_metadata_file url w).2 = files w
  end.
Proof.
  run_util. simpl.
  destruct (remote w url []) as [r|]; simpl; [| split; reflexivity].
  destruct (Response.ok r); simpl; [| split; reflexivity].
  destruct (Response.body_json r) as [js|]; simpl; [| split; reflexivity].
  destruct js as [| | | | |fields]; simpl; try (split; reflexivity).
  destruct (assoc "more" fields) as [more|]; simpl; [| split; reflexivity].
  destruct (truthy more); simpl; [split; reflexivity |].
  destruct (assoc "results" fields) as [results|]; simpl; [| split; reflexivity].
  destruct (frame_of_json results); simpl; split; reflexivity.
Qed.

(** The loop of [update_metadata_files] over URLs that the server serves:
    one request per URL, in order, and a file for each. *)
Lemma for_each_served (urls : list string) (w : World) :
  (forall u : string, u ∈ urls -> exists d, Util.serves (remote w) u d) ->
  exists w' : World,
    Util.for_each urls Util.update_metadata_file w = (Ok tt, w') /\
    remote w' = remote w /\
    requested w' = (rev (map (fun u => (u, [])) urls) ++ requested w)%list /\
    (forall u : string, u ∈ urls ->
       is_Some (files w' !! (os_path_join Util.DATA_DIR
                               (split_dot_head (os_path_basename u))
                             +:+ ".csv"))) /\
    (forall k : string, is_Some (files w !! k) -> is_Some (files w' !! k)).
Proof.
  revert w. induction urls as [|u urls IH]; intros w Hserved.
  - exists w. simpl. repeat split; [| auto].
    intros u Hu. inversion Hu.
  - destruct (Hserved u) as (d & r & fields & more & results & Hr & Hok & Hjs
                             & Hmore & Hfalse & Hres & Hdf); [left |].
    destruct (update_metadata_file_ok u w r fields more results d
                Hr Hok Hjs Hmore Hfalse Hres Hdf)
      as (w1 & Hrun & Hreq1 & Hfiles1 & _ & Hrem1 & _).
    destruct (IH w1) as (w' & Hloop & Hrem & Hreq & Hall & Hkeep).
    { intros u' Hu'. rewrite Hrem1. apply Hserved. now right. }
    exists w'. simpl. unfold mbind, py_bind. rewrite Hrun.
    split; [exact Hloop |]. split; [congruence |].
    split; [rewrite Hreq, Hreq1, <- app_assoc; reflexivity |].
    split.
    + intros u' Hu'. apply elem_of_cons in Hu' as [-> | Hu'].
      * apply Hkeep. rewrite Hfiles1, lookup_insert_eq. eauto.
      * now apply Hall.
    + intros k Hk. apply Hkeep. rewrite Hfiles1.
      destruct (decide (os_path_join Util.DATA_DIR
                          (split_dot_head (os_path_basename u)) +:+ ".csv" = k))
        as [<- | Hne].
      * rewrite lookup_insert_eq. eauto.
      * rewrite lookup_insert_ne by exact Hne. exact Hk.
Qed.

(** X2: when the server serves every one of the sixteen URLs, the bulk refresh
    succeeds whatever is on disk, sends the sixteen requests in the order of
    the list, and leaves a file for every table name, so that every table
    is then read from disk without a request. *)
Theorem refresh_caches_every_table (w : World) :
  (forall u : string,
     u ∈ Util.metadata_urls -> exists d, Util.serves (remote w) u d) ->
  exists w' : World,
    Util.update_metadata_files w = (Ok tt, w') /\
    requested w' =
      (rev (map (fun u => (u, [])) Util.metadata_urls) ++ requested w)%list /\
    net_calls w' = (16 + net_calls w)%nat /\
    forall root : string,
      root ∈ Util.table_names ->
      is_Some (files w' !! os_path_join Util.DATA_DIR (root +:+ ".csv")) /\
      (Util._get_metadata_file root w').2 = w'.
Proof.
  intros Hserved.
  destruct (for_each_served Util.metadata_urls w Hserved)
    as (w' & Hloop & _ & Hreq & Hall & _).
  exists w'. split; [exact Hloop |]. split; [exact Hreq |].
  split; [unfold net_calls; rewrite Hreq, length_app; reflexivity |].
  intros root Hroot.
  assert (Hfile : is_Some (files w' !! os_path_join Util.DATA_DIR
                                         (root +:+ ".csv"))).
  { unfold Util.table_names in Hroot.
    apply list_elem_of_fmap in Hroot as (u & -> & Hu).
    rewrite <- join_append by reflexivity. now apply Hall. }
  split; [exact Hfile |].
  destruct Hfile as [txt Htxt].
  rewrite (cached_table_read root txt w' Htxt). reflexivity.
Qed.

(** X3: a table that is on disk is served from there whatever the server would
    answer: the world is untouched (no request), the result is the parse of
    the file, and a file that does not parse is an error on every call. *)
Theorem cached_table_never_refetched (root txt : string) (w : World) :
  files w !! os_path_join Util.DATA_DIR (root +:+ ".csv") = Some txt ->
  (Util._get_metadata_file root w).2 = w /\
  (forall d : DataFrame,
     parse_csv (Some 0%nat) txt = Some d ->
     Util._get_metadata_file root w = (Ok d, w)) /\
  (parse_csv (Some 0%nat) txt = None ->
   Util._get_metadata_file root w = (Raise PandasError, w)).
Proof.
  intros Hf. rewrite (cached_table_read root txt w Hf).
  split; [reflexivity |].
  split; [intros d -> | intros ->]; reflexivity.
Qed.

(** X4: once every table name has a file (as after a refresh), each of the four
    accessors leaves the world as it is, whatever code it is given: the
    tables the accessors ask for are among the tables the refresh stores. *)
Theorem accessors_offline_when_cached (w : World) :
  (forall root : string,
     root ∈ Util.table_names ->
     is_Some (files w !! os_path_join Util.DATA_DIR (root +:+ ".csv"))) ->
  (Util.get_partner_areas w).2 = w /\
  (Util.get_reporter_areas w).2 = w /\
  (Util.get_trade_regimes w).2 = w /\
  forall n : string, (Util.get_classification n w).2 = w.
Proof.
  intros Hall.
  assert (Hread : forall root : string,
             root ∈ Util.table_names -> (Util._get_metadata_file root w).2 = w).
  { intros root Hroot. destruct (Hall root Hroot) as [txt Htxt].
    rewrite (cached_table_read root txt w Htxt). reflexivity. }
  repeat split.
  - apply Hread. apply list_elem_of_In. vm_compute. tauto.
  - apply Hread. apply list_elem_of_In. vm_compute. tauto.
  - apply Hread. apply list_elem_of_In. vm_compute. tauto.
  - intros n. unfold Util.get_classification.
    destruct (decide (n ∈ Util.allowed)) as [Hn | Hn].
    + rewrite bool_decide_eq_true_2 by exact Hn. apply Hread.
      apply list_elem_of_In in Hn. simpl in Hn.
      repeat (destruct Hn as [<- | Hn];
              [apply list_elem_of_In; vm_compute; tauto |]).
      destruct Hn.
    + rewrite bool_decide_eq_false_2 by exact Hn. reflexivity.
Qed.

End CacheProperties.

(** ** The client, continued *)

Section ClientProperties.
Context `{!Tabular, !Archive, !Host}.

(** X5: [_validate_kwargs] never touches the world, and it succeeds exactly
    when every keyword is in the allow-list. *)
Theorem validation_accepts_exactly_allowed (method : string)
    (names : list string) (kw : kwargs) (w : World) :
  (Comtrade._validate_kwargs method names kw w).2 = w /\
  ((Comtrade._validate_kwargs method names kw w).1 = Ok tt <->
   forall k : string, k ∈ kw.*1 -> k ∈ names).
Proof.
  rewrite validate_first_unknown.
  destruct (Comtrade.first_unknown names kw) as [k0|] eqn:Hfirst.
  - split; [reflexivity |]. split; [discriminate |].
    intros Hall. rewrite (first_unknown_None names kw Hall) in Hfirst.
    discriminate.
  - split; [reflexivity |]. split; [| reflexivity].
    intros _ k Hk. destruct (decide (k ∈ names)) as [Hin | Hout]; [exact Hin |].
    destruct (first_unknown_Some names kw k Hk Hout) as (k' & Hsome & _).
    congruence.
Qed.

(** X6: the constructor reads the environment and the token file and may warn;
    it sends nothing, writes no file and prints nothing, whatever it is
    given and however it ends. *)
Theorem construction_sends_and_writes_nothing (url : string)
    (token : option string) (max_retries : Z) (w : World) :
  let w' := (Comtrade.__init__ url token max_retries w).2 in
  requested w' = requested w /\
  files w' = files w /\
  environ w' = environ w /\
  printed w' = printed w /\
  (warned w' = warned w \/ exists msg : string, warned w' = msg :: warned w).
Proof.
  unfold Comtrade.__init__, os_environ, os_path_isfile, read_text, read_bytes,
    warnings_warn, slice_to, raise, mbind, py_bind, mret, py_ret.
  destruct token as [v|]; simpl; [repeat split; now left |].
  destruct (environ w !! Util.KEY_ENV_NAME) as [v|]; simpl.
  - destruct (Comtrade.key_len <? String.length v)%nat; simpl;
      [repeat split; now left |].
    destruct (String.length v <? Comtrade.key_len)%nat; simpl;
      repeat split; now left.
  - destruct (bool_decide (is_Some (files w !! Util.KEY_FILE_NAME))); simpl.
    + destruct (files w !! Util.KEY_FILE_NAME) as [txt|]; simpl;
        [| repeat split; now left].
      destruct (Comtrade.key_len
                <? String.length (strip (universal_newlines txt)))%nat; simpl;
        [repeat split; now left |].
      destruct (String.length (strip (universal_newlines txt))
                <? Comtrade.key_len)%nat; simpl;
        repeat split; now left.
    + repeat split. right. eauto.
Qed.

(** X7: a client that the constructor returns with a token has a token of
    exactly 152 characters, found in the environment or, read in text mode
    and stripped, in the token file, and a session; a token passed as the
    argument is never the stored one. *)
Theorem constructed_token_has_key_length (url : string)
    (token : option string) (max_retries : Z) (w w' : World)
    (c : Comtrade.t) :
  Comtrade.__init__ url token max_retries w = (Ok c, w') ->
  Comtrade.url c = url /\
  (token <> None -> Comtrade.token c = None) /\
  forall v : string,
    Comtrade.token c = Some v ->
    String.length v = 152%nat /\
    Comtrade.looked_up w v /\
    Comtrade.sess c = Some (mkSession url max_retries).
Proof.
  unfold Comtrade.__init__, Comtrade.looked_up, os_environ, os_path_isfile,
    read_text, read_bytes, warnings_warn, slice_to, raise, mbind, py_bind,
    mret, py_ret.
  destruct token as [t|]; simpl.
  { intros [= <- <-]. simpl. repeat split; congruence. }
  destruct (environ w !! Util.KEY_ENV_NAME) as [v0|] eqn:Henv; simpl.
  - destruct (Nat.ltb_spec Comtrade.key_len (String.length v0)); simpl;
      [discriminate |].
    destruct (Nat.ltb_spec (String.length v0) Comtrade.key_len); simpl;
      [discriminate |].
    intros [= <- <-]. simpl. split; [reflexivity |]. split; [congruence |].
    intros v [= <-]. unfold Comtrade.key_len in *.
    split; [lia |]. split; [now left | reflexivity].
  - destruct (files w !! Util.KEY_FILE_NAME) as [txt|] eqn:Hfile; simpl.
    + try rewrite bool_decide_eq_true_2 by eauto. simpl. try rewrite Hfile.
      simpl.
      destruct (Nat.ltb_spec Comtrade.key_len
                  (String.length (strip (universal_newlines txt))));
        simpl; [discriminate |].
      destruct (Nat.ltb_spec (String.length (strip (universal_newlines txt)))
                  Comtrade.key_len);
        simpl; [discriminate |].
      intros [= <- <-]. simpl. split; [reflexivity |]. split; [congruence |].
      intros v [= <-]. unfold Comtrade.key_len in *.
      split; [lia |]. split; [| reflexivity].
      right. split; [reflexivity |]. exists txt. split; reflexivity.
    + try rewrite bool_decide_eq_false_2 by (intros [x Hx]; discriminate).
      simpl.
      intros [= <- <-]. simpl. split; [reflexivity |]. split; [congruence |].
      intros v Hv. discriminate.
Qed.

(** X8: [_make_request] hands back a response only when its status is 200, and
    raises [QueryError] only with the response of another status; either
    way the response is the server's answer to the one request it sent, and
    no file is touched. *)
Theorem request_outcome (self : Comtrade.t) (method : string)
    (params : kwargs) (w w' : World) (r : Response.t) :
  (Comtrade._make_request self method params w = (Ok r, w') ->
   Response.status_code r = 200 /\
   remote w (Comtrade.url self +:+ method) params = Some r /\
   requested w' = (Comtrade.url self +:+ method, params) :: requested w /\
   files w' = files w) /\
  (forall msg : string,
     Comtrade._make_request self method params w
       = (Raise (QueryError msg r), w') ->
     Response.status_code r <> 200 /\
     remote w (Comtrade.url self +:+ method) params = Some r /\
     requested w' = (Comtrade.url self +:+ method, params) :: requested w /\
     files w' = files w).
Proof.
  unfold Comtrade._make_request, Comtrade.self_sess, Comtrade.session_get,
    http_get, raise, mbind, py_bind, mret, py_ret.
  destruct (Comtrade.sess self) as [s|]; simpl;
    [| split; [| intros msg]; discriminate].
  destruct (remote w (Comtrade.url self +:+ method) params) as [r0|]; simpl;
    [| split; [| intros msg]; discriminate].
  destruct (Z.eqb_spec (Response.status_code r0) 200) as [H200 | Hnot]; simpl.
  - split; [| intros msg; discriminate].
    intros [= <- <-]. simpl. repeat split. exact H200.
  - split; [discriminate |].
    intros msg [= _ <- <-]. simpl. repeat split. exact Hnot.
Qed.

(** X9: a query ([get], [view] or [view_bulk]) with allowed keywords that is
    answered with status 200 and an envelope holding [validation] and a
    non-empty [dataset] that makes a table returns that validation, that
    table and the URL of the response, after exactly one request to its
    endpoint with the keywords as given. *)
Theorem query_returns_envelope (q : Comtrade.query) (self : Comtrade.t)
    (s : Session) (kw : kwargs) (w : World) (r : Response.t)
    (fields : list (string * json)) (v data : json) (d : DataFrame) :
  Comtrade.sess self = Some s ->
  (forall k : string, k ∈ kw.*1 -> k ∈ Comtrade.allow_list q) ->
  remote w (Comtrade.url self +:+ Comtrade.endpoint q) kw = Some r ->
  Response.status_code r = 200 ->
  Response.body_json r = Some (JObj fields) ->
  assoc "validation" fields = Some v ->
  assoc "dataset" fields = Some data ->
  truthy data = true ->
  frame_of_json data = Some d ->
  exists w1 : World,
    Comtrade.call q self kw w
      = (Ok (ComtradeResult.mk _ v d (Response.url r)), w1) /\
    requested w1
      = (Comtrade.url self +:+ Comtrade.endpoint q, kw) :: requested w.
Proof.
  intros Hs Hkw Hr H200 Hjs Hv Hdata Htruthy Hframe.
  destruct (call_answered q self s kw w r Hs Hkw Hr) as (msg & w1 & Hreq & Hcall).
  exists w1. split; [| exact Hreq].
  rewrite Hcall, H200. simpl.
  rewrite (envelope_checked r fields w1 Hjs), Hv, Hdata, Htruthy, Hframe.
  reflexivity.
Qed.

(** What the two token requests do with a 200 answer whose body is a JSON
    object: the [token] field if there is one, else a [QueryError] that
    carries the response. *)
Lemma token_of_object (r : Response.t) (fields : list (string * json))
    (w : World) :
  Response.body_json r = Some (JObj fields) ->
  Comtrade.token_of_response r w =
    (match assoc "token" fields with
     | Some t => Ok t
     | None => Raise (QueryError "Query failed to return a valid token" r)
     end, w).
Proof.
  intros Hjs.
  unfold Comtrade.token_of_response, response_json, py_in, py_getitem,
    raise, mbind, py_bind, mret, py_ret.
  rewrite Hjs. simpl. destruct (assoc "token" fields); reflexivity.
Qed.

(** X10: [get_subuser_token] sends the e-mail address, and [get_auth_token] the
    user name and the password, as query parameters of one GET; from a 200
    answer with a JSON object each returns the [token] field, and raises a
    [QueryError] carrying the response when the field is missing. *)
Theorem token_requests (self : Comtrade.t) (s : Session)
    (email username password : string) (w : World) (r : Response.t)
    (fields : list (string * json)) :
  Comtrade.sess self = Some s ->
  Response.status_code r = 200 ->
  Response.body_json r = Some (JObj fields) ->
  (remote w (Comtrade.url self +:+ "getSubUserToken")
     [("email", PyStr email)] = Some r ->
   exists w1 : World,
     Comtrade.get_subuser_token self email w =
       (match assoc "token" fields with
        | Some t => Ok t
        | None => Raise (QueryError "Query failed to return a valid token" r)
        end, w1) /\
     requested w1 =
       (Comtrade.url self +:+ "getSubUserToken", [("email", PyStr email)])
       :: requested w) /\
  (remote w (Comtrade.url self +:+ "getAuthToken")
     [("username", PyStr username); ("password", PyStr password)] = Some r ->
   exists w1 : World,
     Comtrade.get_auth_token self username password w =
       (match assoc "token" fields with
        | Some t => Ok t
        | None => Raise (QueryError "Query failed to return a valid token" r)
        end, w1) /\
     requested w1 =
       (Comtrade.url self +:+ "getAuthToken",
        [("username", PyStr username); ("password", PyStr password)])
       :: requested w).
Proof.
  intros Hs H200 Hjs. split; intros Hr; eexists.
  - unfold Comtrade.get_subuser_token, mbind, py_bind.
    rewrite (make_request_answered self s _ _ w r Hs Hr), H200. simpl.
    rewrite (token_of_object r fields _ Hjs). split; reflexivity.
  - unfold Comtrade.get_auth_token, mbind, py_bind.
    rewrite (make_request_answered self s _ _ w r Hs Hr), H200. simpl.
    rewrite (token_of_object r fields _ Hjs). split; reflexivity.
Qed.

(** X11: [get_user_info] asks with the token it is given, else with the token
    of the client, and returns the decoded body of a 200 answer as it is;
    with neither token it raises [ValueError] and sends nothing. *)
Theorem user_info_uses_chosen_token (self : Comtrade.t) (tok : option string)
    (w : World) :
  (tok = None -> Comtrade.token self = None ->
   Comtrade.get_user_info self tok w =
     (Raise (ValueError "Cannot get user info without a token"), w)) /\
  (forall (s : Session) (v : string) (r : Response.t) (js : json),
     tok = Some v \/ (tok = None /\ Comtrade.token self = Some v) ->
     Comtrade.sess self = Some s ->
     remote w (Comtrade.url self +:+ "getUserInfo") [("token", PyStr v)]
       = Some r ->
     Response.status_code r = 200 ->
     Response.body_json r = Some js ->
     exists w1 : World,
       Comtrade.get_user_info self tok w = (Ok js, w1) /\
       requested w1 =
         (Comtrade.url self +:+ "getUserInfo", [("token", PyStr v)])
         :: requested w).
Proof.
  split.
  - intros -> Hnone. unfold Comtrade.get_user_info. rewrite Hnone. reflexivity.
  - intros s v r js Hchoice Hs Hr H200 Hjs. eexists.
    unfold Comtrade.get_user_info.
    assert (Htok : match tok with
                   | Some v0 => Some v0
                   | None => Comtrade.token self
                   end = Some v).
    { destruct Hchoice as [-> | [-> Hself]]; [reflexivity | exact Hself]. }
    rewrite Htok. unfold mbind, py_bind.
    rewrite (make_request_answered self s _ _ w r Hs Hr), H200. simpl.
    unfold response_json. rewrite Hjs. split; reflexivity.
Qed.

(** X12: saving a sub-user token and constructing a client afterwards: the
    token the server sent is written to the token file as it is, and a
    constructor that is given no token and finds none in the environment
    reads it back in text mode (carriage returns become line feeds) and
    stripped; when what it reads is 152 characters long, that is the token
    of the client. *)
Theorem saved_token_is_read_back (self : Comtrade.t) (s : Session)
    (email v url : string) (max_retries : Z) (w : World) (r : Response.t)
    (fields : list (string * json)) :
  Comtrade.sess self = Some s ->
  remote w (Comtrade.url self +:+ "getSubUserToken") [("email", PyStr email)]
    = Some r ->
  Response.status_code r = 200 ->
  Response.body_json r = Some (JObj fields) ->
  assoc "token" fields = Some (JStr v) ->
  environ w !! Util.KEY_ENV_NAME = None ->
  String.length (strip (universal_newlines v)) = 152%nat ->
  exists w1 : World,
    Comtrade.save_subuser_token self email w = (Ok tt, w1) /\
    files w1 !! Util.KEY_FILE_NAME = Some v /\
    net_calls w1 = S (net_calls w) /\
    Comtrade.__init__ url None max_retries w1 =
      (Ok (Comtrade.mk url (Some (strip (universal_newlines v)))
             (Some (mkSession url max_retries))), w1).
Proof.
  intros Hs Hr H200 Hjs Htok Henv Hlen. eexists.
  split; [| split; [| split]].
  - unfold Comtrade.save_subuser_token, Comtrade.get_subuser_token.
    unfold mbind, py_bind.
    rewrite (make_request_answered self s _ _ w r Hs Hr), H200. simpl.
    rewrite (token_of_object r fields _ Hjs), Htok. reflexivity.
  - simpl. apply lookup_insert_eq.
  - reflexivity.
  - apply init_exact_looked_up; [| exact Hlen].
    right. split; [exact Henv |].
    exists v. split; [apply lookup_insert_eq | reflexivity].
Qed.

(** X13: when the answer has no [token] field, saving raises [QueryError] and the
    token file is as before.  When the field is there but is not a string,
    saving raises [TypeError] after the file was opened for writing: the
    token file is left empty, and a constructor that then has to rely on it
    raises [ValueError]. *)
Theorem failed_save_and_the_token_file (self : Comtrade.t) (s : Session)
    (email url : string) (max_retries : Z) (w : World) (r : Response.t)
    (fields : list (string * json)) :
  Comtrade.sess self = Some s ->
  remote w (Comtrade.url self +:+ "getSubUserToken") [("email", PyStr email)]
    = Some r ->
  Response.status_code r = 200 ->
  Response.body_json r = Some (JObj fields) ->
  (assoc "token" fields = None ->
   exists w1 : World,
     Comtrade.save_subuser_token self email w
       = (Raise (QueryError "Query failed to return a valid token" r), w1) /\
     files w1 = files w) /\
  (forall t : json,
     assoc "token" fields = Some t ->
     (forall v : string, t <> JStr v) ->
     exists w1 : World,
       Comtrade.save_subuser_token self email w
         = (Raise (TypeError "write() argument must be str"), w1) /\
       files w1 !! Util.KEY_FILE_NAME = Some "" /\
       (environ w !! Util.KEY_ENV_NAME = None ->
        exists msg : string,
          Comtrade.__init__ url None max_retries w1
            = (Raise (ValueError msg), w1))).
Proof.
  intros Hs Hr H200 Hjs. split.
  - intros Htok. eexists.
    unfold Comtrade.save_subuser_token, Comtrade.get_subuser_token.
    unfold mbind, py_bind.
    rewrite (make_request_answered self s _ _ w r Hs Hr), H200. simpl.
    rewrite (token_of_object r fields _ Hjs), Htok. split; reflexivity.
  - intros t Htok Hnot. eexists.
    split; [| split].
    + unfold Comtrade.save_subuser_token, Comtrade.get_subuser_token.
      unfold mbind, py_bind.
      rewrite (make_request_answered self s _ _ w r Hs Hr), H200. simpl.
      rewrite (token_of_object r fields _ Hjs), Htok.
      destruct t; try reflexivity. now destruct (Hnot s0).
    + simpl. apply lookup_insert_eq.
    + intros Henv. apply (init_short_looked_up url "").
      * right. split; [exact Henv |].
        exists "". split; [apply lookup_insert_eq | reflexivity].
      * simpl. lia.
Qed.

(** X14: with a token in the environment the token file plays no part: the
    constructor ends the same way whatever the files are. *)
Theorem environment_token_hides_token_file (url v : string) (max_retries : Z)
    (w : World) (other : gmap string string) :
  environ w !! Util.KEY_ENV_NAME = Some v ->
  (Comtrade.__init__ url None max_retries w).1 =
  (Comtrade.__init__ url None max_retries
     (mkWorld (environ w) other (remote w) (requested w) (warned w)
        (printed w))).1.
Proof.
  intros Henv.
  rewrite (init_looked_up url v max_retries w) by (left; exact Henv).
  rewrite (init_looked_up url v max_retries (mkWorld _ other _ _ _ _))
    by (left; exact Henv).
  destruct (Comtrade.key_len <? String.length v)%nat; [reflexivity |].
  destruct (String.length v <? Comtrade.key_len)%nat; reflexivity.
Qed.

(** [get_bulk] on a client with a session, once its request is answered. *)
Lemma get_bulk_answered (self : Comtrade.t) (s : Session)
    (type freq ps r px : string) (tok : option string) (w : World)
    (resp : Response.t) :
  Comtrade.sess self = Some s ->
  remote w
    (Comtrade.url self +:+ "get/bulk/" +:+ type +:+ "/" +:+ freq +:+ "/"
     +:+ ps +:+ "/" +:+ r +:+ "/" +:+ px)
    [("token",
      Comtrade.opt_val
        (match tok with Some v => Some v | None => Comtrade.token self end))]
    = Some resp ->
  exists (msg : string) (w1 : World),
    net_calls w1 = S (net_calls w) /\
    Comtrade.get_bulk self type freq ps r px tok w =
      (if Response.status_code resp =? 200 then
         match zip_open (Response.content resp) with
         | None => Raise BadZipFile
         | Some zf =>
             match namelist zf with
             | [] => Raise (IndexError "list index out of range")
             | name :: _ =>
                 match zip_read zf name with
                 | None => Raise (KeyError name)
                 | Some data =>
                     match parse_csv None data with
                     | None => Raise PandasError
                     | Some d =>
                         Ok (ComtradeResult.mk _ (JObj []) d (Response.url resp))
                     end
                 end
             end
         end
       else Raise (QueryError msg resp), w1).
Proof.
  intros Hs Hr. do 2 eexists. split; [| unfold Comtrade.get_bulk].
  2: { unfold mbind at 1. unfold py_bind at 1.
       rewrite validate_first_unknown. rewrite first_unknown_None.
       2: { intros k Hk. simpl in Hk.
            repeat (apply elem_of_cons in Hk as [-> | Hk];
                    [apply list_elem_of_In; simpl; tauto |]).
            inversion Hk. }
       unfold mbind at 1. unfold py_bind at 1.
       rewrite (make_request_answered self s _ _ w resp Hs Hr).
       destruct (Response.status_code resp =? 200); simpl; [| reflexivity].
       unfold Comtrade.first_name, Comtrade.ComtradeResult_init, raise, mbind,
         py_bind, mret, py_ret.
       destruct (zip_open (Response.content resp)) as [zf|]; [| reflexivity].
       destruct (namelist zf) as [|name others]; [reflexivity |].
       destruct (zip_read zf name) as [data|]; [| reflexivity].
       destruct (parse_csv None data); reflexivity. }
  reflexivity.
Qed.

(** X15: an answered bulk download raises [QueryError] exactly when the status
    is not 200, and the error then carries the response.  With status 200,
    a body that is no archive raises [BadZipFile] and an archive without
    entries raises [IndexError]; in no case is a result returned for them. *)
Theorem get_bulk_errors (self : Comtrade.t) (s : Session)
    (type freq ps r px : string) (tok : option string) (w : World)
    (resp : Response.t) :
  Comtrade.sess self = Some s ->
  remote w
    (Comtrade.url self +:+ "get/bulk/" +:+ type +:+ "/" +:+ freq +:+ "/"
     +:+ ps +:+ "/" +:+ r +:+ "/" +:+ px)
    [("token",
      Comtrade.opt_val
        (match tok with Some v => Some v | None => Comtrade.token self end))]
    = Some resp ->
  ((exists (msg : string) (resp' : Response.t),
      (Comtrade.get_bulk self type freq ps r px tok w).1
        = Raise (QueryError msg resp')) <->
   Response.status_code resp <> 200) /\
  (forall (msg : string) (resp' : Response.t),
     (Comtrade.get_bulk self type freq ps r px tok w).1
       = Raise (QueryError msg resp') -> resp' = resp) /\
  (Response.status_code resp = 200 ->
   zip_open (Response.content resp) = None ->
   (Comtrade.get_bulk self type freq ps r px tok w).1 = Raise BadZipFile) /\
  (forall zf : ZipFile,
     Response.status_code resp = 200 ->
     zip_open (Response.content resp) = Some zf ->
     namelist zf = [] ->
     (Comtrade.get_bulk self type freq ps r px tok w).1
       = Raise (IndexError "list index out of range")).
Proof.
  intros Hs Hr.
  destruct (get_bulk_answered self s type freq ps r px tok w resp Hs Hr)
    as (msg0 & w1 & _ & Hrun).
  rewrite Hrun. clear Hrun. simpl.
  destruct (Z.eqb_spec (Response.status_code resp) 200) as [H200 | Hnot].
  - repeat split.
    + intros (msg & resp' & Hraise).
      destruct (zip_open (Response.content resp)) as [zf|]; [| discriminate].
      destruct (namelist zf) as [|name others]; [discriminate |].
      destruct (zip_read zf name) as [data|]; [| discriminate].
      destruct (parse_csv None data); discriminate.
    + intros Hne. contradiction.
    + intros msg resp' Hraise.
      destruct (zip_open (Response.content resp)) as [zf|]; [| discriminate].
      destruct (namelist zf) as [|name others]; [discriminate |].
      destruct (zip_read zf name) as [data|]; [| discriminate].
      destruct (parse_csv None data); discriminate.
    + intros _ ->. reflexivity.
    + intros zf _ -> ->. reflexivity.
  - repeat split.
    + intros _. exact Hnot.
    + intros _. eauto.
    + intros msg resp' [= _ ->]. reflexivity.
    + intros H200. contradiction.
    + intros zf H200. contradiction.
Qed.

End ClientProperties.

(** ** Stripping the token file *)

Lemma lstrip_all_space (s : string) : all_space s = true -> lstrip s = "".
Proof.
  induction s as [|c s IH]; simpl; [reflexivity |].
  intros H. apply andb_prop in H as [Hc Hs]. rewrite Hc. now apply IH.
Qed.

Lemma rstrip_all_space (s : string) : all_space s = true -> rstrip s = "".
Proof.
  induction s as [|c s IH]; simpl; [reflexivity |].
  intros H. apply andb_prop in H as [Hc Hs]. rewrite (IH Hs), Hc. reflexivity.
Qed.

Lemma lstrip_after_space (a s : string) :
  all_space a = true -> lstrip (a +:+ s) = lstrip s.
Proof.
  induction a as [|c a IH]; simpl; [reflexivity |].
  intros H. apply andb_prop in H as [Hc Ha]. rewrite Hc. now apply IH.
Qed.

Lemma rstrip_before_space (s b : string) :
  all_space b = true -> rstrip (s +:+ b) = rstrip s.
Proof.
  intros Hb. induction s as [|c s IH]; simpl.
  - now apply rstrip_all_space.
  - rewrite IH. reflexivity.
Qed.

Lemma strip_before_space (s b : string) :
  all_space b = true -> strip (s +:+ b) = strip s.
Proof.
  intros Hb. unfold strip. induction s as [|c s IH]; simpl.
  - rewrite (lstrip_all_space b Hb). reflexivity.
  - destruct (is_space c); [exact IH |].
    apply (rstrip_before_space (String c s) b Hb).
Qed.

Lemma append_cons (c : ascii) (s t : string) :
  String c s +:+ t = String c (s +:+ t).
Proof. reflexivity. Qed.

Lemma append_nil (t : string) : "" +:+ t = t.
Proof. reflexivity. Qed.

Lemma is_space_lf : is_space (ascii_of_nat 10) = true.
Proof. reflexivity. Qed.

Lemma all_space_lf (s : string) :
  all_space (String (ascii_of_nat 10) s) = all_space s.
Proof. reflexivity. Qed.

Lemma is_cr_space (c : ascii) : is_cr c = true -> is_space c = true.
Proof. intros H. apply Ascii.eqb_eq in H. subst c. reflexivity. Qed.

Lemma is_lf_eq (c : ascii) : is_lf c = true -> c = ascii_of_nat 10.
Proof. intros H. now apply Ascii.eqb_eq in H. Qed.

(** The three equations of [universal_newlines] on a non-empty text. *)
Lemma newlines_crlf (r : string) :
  universal_newlines (String (ascii_of_nat 13) (String (ascii_of_nat 10) r))
    = String (ascii_of_nat 10) (universal_newlines r).
Proof. reflexivity. Qed.

Lemma newlines_cr (c : ascii) (r : string) :
  is_lf c = false ->
  universal_newlines (String (ascii_of_nat 13) (String c r))
    = String (ascii_of_nat 10) (universal_newlines (String c r)).
Proof.
  intros H. change (universal_newlines (String (ascii_of_nat 13) (String c r)))
    with (if is_lf c
          then String (ascii_of_nat 10) (universal_newlines r)
          else String (ascii_of_nat 10) (universal_newlines (String c r))).
  now rewrite H.
Qed.

Lemma newlines_other (c : ascii) (r : string) :
  is_cr c = false ->
  universal_newlines (String c r) = String c (universal_newlines r).
Proof.
  intros H. change (universal_newlines (String c r))
    with (if is_cr c
          then match r with
               | EmptyString => String (ascii_of_nat 10) EmptyString
               | String c' r' =>
                   if is_lf c'
                   then String (ascii_of_nat 10) (universal_newlines r')
                   else String (ascii_of_nat 10) (universal_newlines r)
               end
          else String c (universal_newlines r)).
  now rewrite H.
Qed.

(** A text begins with a carriage return and a line feed, with a carriage
    return and something else, or with another character. *)
Lemma newline_cases (c : ascii) (r : string) :
  (c = ascii_of_nat 13 /\ r = EmptyString) \/
  (c = ascii_of_nat 13 /\ exists r', r = String (ascii_of_nat 10) r') \/
  (c = ascii_of_nat 13 /\ exists c' r', r = String c' r' /\ is_lf c' = false) \/
  is_cr c = false.
Proof.
  destruct (is_cr c) eqn:Hc; [| now right; right; right].
  apply Ascii.eqb_eq in Hc. subst c.
  destruct r as [|c' r']; [now left |].
  destruct (is_lf c') eqn:Hlf.
  - apply is_lf_eq in Hlf. subst c'. right. left. eauto.
  - right. right. left. eauto.
Qed.

(** Reading in text mode turns a leading whitespace character into
    whitespace, so it does not change what remains once that is stripped. *)
Lemma lstrip_newlines_cons (c : ascii) (t : string) :
  is_space c = true ->
  lstrip (universal_newlines (String c t)) = lstrip (universal_newlines t).
Proof.
  intros Hc.
  destruct (newline_cases c t)
    as [[-> ->] | [[-> [r' ->]] | [[-> (c' & r' & -> & Hlf)] | Hother]]].
  - reflexivity.
  - rewrite newlines_crlf.
    rewrite (newlines_other (ascii_of_nat 10) r') by reflexivity.
    reflexivity.
  - rewrite (newlines_cr c' r' Hlf). reflexivity.
  - rewrite (newlines_other c t Hother). simpl. now rewrite Hc.
Qed.

Lemma lstrip_newlines_after_space (a t : string) :
  all_space a = true ->
  lstrip (universal_newlines (a +:+ t)) = lstrip (universal_newlines t).
Proof.
  induction a as [|c a IH]; [reflexivity |].
  intros H. simpl in H. apply andb_prop in H as [Hc Ha].
  change (String c a +:+ t) with (String c (a +:+ t)).
  rewrite (lstrip_newlines_cons c (a +:+ t) Hc). now apply IH.
Qed.

(** Induction on texts that may step over two characters at once. *)
Lemma string_pair_ind (P : string -> Prop) :
  P EmptyString ->
  (forall c : ascii, P (String c EmptyString)) ->
  (forall (c c' : ascii) (r : string),
     P r -> P (String c' r) -> P (String c (String c' r))) ->
  forall s : string, P s.
Proof.
  intros H0 H1 H2 s.
  assert (Hboth : P s /\ forall c : ascii, P (String c s)).
  { induction s as [|c' s [IHs IHc]].
    - split; [exact H0 | exact H1].
    - split; [apply IHc |]. intros c. apply H2; [exact IHs | apply IHc]. }
  exact (proj1 Hboth).
Qed.

Lemma all_space_newlines (b : string) :
  all_space b = true -> all_space (universal_newlines b) = true.
Proof.
  induction b as [| c | c c' r IHr IHc] using string_pair_ind.
  - reflexivity.
  - intros H. simpl in H. apply andb_prop in H as [Hc _].
    destruct (is_cr c) eqn:Hcr.
    + apply Ascii.eqb_eq in Hcr. subst c. reflexivity.
    + rewrite (newlines_other c "" Hcr). simpl. now rewrite Hc.
  - intros H. simpl in H. apply andb_prop in H as [Hc H].
    assert (Hcr' : all_space (String c' r) = true) by exact H.
    apply andb_prop in H as [Hc' Hr].
    destruct (newline_cases c (String c' r))
      as [[_ Hnil] | [[-> [r' Heq]] | [[-> (c2 & r2 & Heq & Hlf)] | Hother]]].
    + discriminate.
    + injection Heq as -> ->. rewrite newlines_crlf, all_space_lf.
      now apply IHr.
    + injection Heq as -> ->. rewrite (newlines_cr _ _ Hlf), all_space_lf.
      now apply IHc.
    + rewrite (newlines_other c _ Hother). simpl. rewrite Hc. now apply IHc.
Qed.

(** Reading in text mode keeps trailing whitespace apart from the text
    before it: what follows the text read alone is again whitespace. *)
Lemma newlines_before_space (s b : string) :
  all_space b = true ->
  exists b' : string,
    all_space b' = true /\
    universal_newlines (s +:+ b) = universal_newlines s +:+ b'.
Proof.
  intros Hb.
  induction s as [| c | c c' r IHr IHc] using string_pair_ind.
  - exists (universal_newlines b). split; [now apply all_space_newlines |].
    reflexivity.
  - destruct (is_cr c) eqn:Hcr.
    + apply Ascii.eqb_eq in Hcr. subst c.
      destruct b as [|c' b0].
      * exists "". split; reflexivity.
      * simpl in Hb. apply andb_prop in Hb as [Hc' Hb0].
        destruct (is_lf c') eqn:Hlf.
        -- apply is_lf_eq in Hlf. subst c'.
           exists (universal_newlines b0).
           split; [now apply all_space_newlines |]. reflexivity.
        -- exists (universal_newlines (String c' b0)).
           split; [apply all_space_newlines; simpl; now rewrite Hc' |].
           rewrite ?append_cons, ?append_nil. rewrite (newlines_cr c' b0 Hlf). reflexivity.
    + exists (universal_newlines b). split; [now apply all_space_newlines |].
      rewrite !append_cons, !append_nil.
      rewrite (newlines_other c b Hcr), (newlines_other c "" Hcr).
      reflexivity.
  - destruct (newline_cases c (String c' r))
      as [[_ Hnil] | [[-> [r' Heq]] | [[-> (c2 & r2 & Heq & Hlf)] | Hother]]].
    + discriminate.
    + injection Heq as -> ->. destruct IHr as (b' & Hb' & Heq).
      exists b'. split; [exact Hb' |].
      rewrite ?append_cons, ?append_nil. rewrite !newlines_crlf, Heq. reflexivity.
    + injection Heq as -> ->. destruct IHc as (b' & Hb' & Heq).
      exists b'. split; [exact Hb' |].
      rewrite ?append_cons, ?append_nil. rewrite ?append_cons, ?append_nil in Heq.
      rewrite !(newlines_cr c2 _ Hlf), Heq. reflexivity.
    + destruct IHc as (b' & Hb' & Heq).
      exists b'. split; [exact Hb' |].
      rewrite ?append_cons, ?append_nil. rewrite ?append_cons, ?append_nil in Heq.
      rewrite !(newlines_other c _ Hother), Heq. reflexivity.
Qed.

(** Whitespace around the token in the token file does not count, carriage
    returns included: a file that holds padding, text and padding is read
    and stripped to what the text alone is read and stripped to. *)
Lemma strip_newlines_padded (a s b : string) :
  all_space a = true -> all_space b = true ->
  strip (universal_newlines (a +:+ s +:+ b)) = strip (universal_newlines s).
Proof.
  intros Ha Hb. unfold strip at 1.
  rewrite (lstrip_newlines_after_space a _ Ha).
  destruct (newlines_before_space s b Hb) as (b' & Hb' & ->).
  apply (strip_before_space (universal_newlines s) b' Hb').
Qed.

(** X16: the token file may hold the token between whitespace (a final
    newline, of either kind, say): a constructor that is given no token and
    finds none in the environment takes the 152 characters between the
    padding as the token of the client, when they hold no carriage return
    and begin and end with something else than whitespace. *)
Theorem padded_token_file_accepted `{!Host} (url a v b : string)
    (max_retries : Z) (w : World) :
  environ w !! Util.KEY_ENV_NAME = None ->
  files w !! Util.KEY_FILE_NAME = Some (a +:+ v +:+ b) ->
  all_space a = true ->
  all_space b = true ->
  universal_newlines v = v ->
  strip v = v ->
  String.length v = 152%nat ->
  Comtrade.__init__ url None max_retries w =
    (Ok (Comtrade.mk url (Some v) (Some (mkSession url max_retries))), w).
Proof.
  intros Henv Hfile Ha Hb Hnl Hv Hlen.
  apply init_exact_looked_up; [| exact Hlen].
  right. split; [exact Henv |].
  exists (a +:+ v +:+ b). split; [exact Hfile |].
  rewrite (strip_newlines_padded a v b Ha Hb), Hnl. exact Hv.
Qed.

(** ** Further runs on the sample host *)

Lemma sample_serves_regimes (u : string) :
  @Util.serves Sample.tabular
    (remote (Sample.serving (Sample.regimes_response false))) u
    [["id"; "text"]; ["all"; "All"]; ["1"; "Import"]].
Proof.
  exists (Sample.regimes_response false),
    [("more", JBool false); ("results", Sample.regimes)],
    (JBool false), Sample.regimes.
  repeat split.
Qed.

Lemma refresh_caches_every_table_witness :
  exists w' : World,
    @Util.update_metadata_files Sample.tabular Sample.host
       (Sample.serving (Sample.regimes_response false)) = (Ok tt, w') /\
    net_calls w' = 16%nat /\
    is_Some (files w' !! "/home/user/.comtrade/data/classificationEB02.csv").
Proof.
  destruct (@refresh_caches_every_table Sample.tabular Sample.host
              (Sample.serving (Sample.regimes_response false)))
    as (w' & Hrun & _ & Hcalls & Hfiles).
  - intros u _. eexists. apply sample_serves_regimes.
  - exists w'. split; [exact Hrun |]. split; [exact Hcalls |].
    apply (Hfiles "classificationEB02").
    apply list_elem_of_In. vm_compute. tauto.
Defined.

Lemma cached_table_never_refetched_witness :
  let w := Sample.with_cached "tradeRegimes" (",id" +:+ String Sample.newline "0,all") in
  @Util._get_metadata_file Sample.tabular Sample.host "tradeRegimes" w
    = (Ok [["id"]; ["all"]], w).
Proof.
  intros w.
  apply (proj1 (proj2 (@cached_table_never_refetched Sample.tabular
                         Sample.host "tradeRegimes"
                         (",id" +:+ String Sample.newline "0,all") w
                         (lookup_singleton_eq _ _)))).
  reflexivity.
Defined.

Lemma accessors_offline_when_cached_witness :
  exists w' : World,
    @Util.update_metadata_files Sample.tabular Sample.host
       (Sample.serving (Sample.regimes_response false)) = (Ok tt, w') /\
    (@Util.get_partner_areas Sample.tabular Sample.host w').2 = w' /\
    (@Util.get_classification Sample.tabular Sample.host "H4" w').2 = w'.
Proof.
  destruct (@for_each_served Sample.tabular Sample.host Util.metadata_urls
              (Sample.serving (Sample.regimes_response false)))
    as (w' & Hrun & _ & _ & Hall & _).
  - intros u _. eexists. apply sample_serves_regimes.
  - exists w'. split; [exact Hrun |].
    assert (Hcached : forall root : string,
               root ∈ Util.table_names ->
               is_Some (files w' !! @os_path_join
                          (@Util.DATA_DIR Sample.host) (root +:+ ".csv"))).
    { intros root Hroot. unfold Util.table_names in Hroot.
      apply list_elem_of_fmap in Hroot as (u & -> & Hu).
      rewrite <- join_append by reflexivity. now apply Hall. }
    destruct (@accessors_offline_when_cached Sample.tabular Sample.host w'
                Hcached) as (Hp & _ & _ & Hc).
    split; [exact Hp | exact (Hc "H4")].
Defined.

Lemma validation_accepts_exactly_allowed_witness :
  (Comtrade._validate_kwargs "view" Comtrade.view_allowed_kwargs
     [("r", PyStr "4"); ("px", PyStr "HS")] Sample.bare).1 = Ok tt.
Proof.
  apply (proj2 (validation_accepts_exactly_allowed "view"
                  Comtrade.view_allowed_kwargs
                  [("r", PyStr "4"); ("px", PyStr "HS")] Sample.bare)).
  intros k Hk. simpl in Hk.
  repeat (apply elem_of_cons in Hk as [-> | Hk];
          [apply list_elem_of_In; simpl; tauto |]).
  inversion Hk.
Defined.

Lemma constructed_token_has_key_length_witness :
  exists c : Comtrade.t,
    @Comtrade.__init__ Sample.host "http://comtrade.un.org/api/" None 3
       (Sample.with_env Sample.exact_token)
      = (Ok c, Sample.with_env Sample.exact_token) /\
    forall v : string,
      Comtrade.token c = Some v -> String.length v = 152%nat.
Proof.
  eexists. split.
  - apply (init_exact_looked_up _ Sample.exact_token).
    + apply sample_env_looked_up.
    + apply exact_token_length.
  - intros v Hv.
    apply (proj2 (proj2 (@constructed_token_has_key_length Sample.host
                           "http://comtrade.un.org/api/" None 3
                           (Sample.with_env Sample.exact_token)
                           (Sample.with_env Sample.exact_token) _
                           (init_exact_looked_up _ Sample.exact_token 3 _
                              (sample_env_looked_up _) exact_token_length)))
             v Hv).
Defined.

Lemma request_outcome_witness :
  let r := Sample.envelope_response 200 [] in
  let w := Sample.serving r in
  Response.status_code r = 200 /\
  remote w "http://comtrade.un.org/api/get" [] = Some r.
Proof.
  intros r w.
  destruct (proj1 (@request_outcome Sample.host Sample.client "get" [] w
                     (mkWorld ∅ ∅ (remote w)
                        [("http://comtrade.un.org/api/get", [])] [] [])
                     r) eq_refl)
    as (H200 & Hr & _).
  split; [exact H200 | exact Hr].
Defined.

Lemma query_returns_envelope_witness :
  let r := Sample.envelope_response 200
             [("validation", JObj []); ("dataset", Sample.regimes)] in
  exists w1 : World,
    @Comtrade.view Sample.tabular Sample.host Sample.client
       [("r", PyStr "4")] (Sample.serving r)
      = (Ok (@ComtradeResult.mk Sample.tabular (JObj [])
               [["id"; "text"]; ["all"; "All"]; ["1"; "Import"]]
               "http://comtrade.un.org/api/get?r=4"), w1) /\
    requested w1
      = [("http://comtrade.un.org/api/refs/da/view", [("r", PyStr "4")])].
Proof.
  intros r.
  apply (@query_returns_envelope Sample.tabular Sample.host Comtrade.View
           Sample.client (mkSession "http://comtrade.un.org/api/" 3)
           [("r", PyStr "4")] (Sample.serving r) r
           [("validation", JObj []); ("dataset", Sample.regimes)]
           (JObj []) Sample.regimes
           [["id"; "text"]; ["all"; "All"]; ["1"; "Import"]]);
    try reflexivity.
  intros k Hk. simpl in Hk. apply list_elem_of_singleton in Hk as ->. left.
Defined.

Lemma token_requests_witness :
  let r := Sample.token_response (JStr "secret") in
  exists w1 : World,
    @Comtrade.get_auth_token Sample.host Sample.client "user" "pass"
       (Sample.serving r) = (Ok (JStr "secret"), w1) /\
    requested w1 =
      [("http://comtrade.un.org/api/getAuthToken",
        [("username", PyStr "user"); ("password", PyStr "pass")])].
Proof.
  intros r.
  apply (proj2 (@token_requests Sample.host Sample.client
                  (mkSession "http://comtrade.un.org/api/" 3)
                  "a@b.org" "user" "pass" (Sample.serving r) r
                  [("token", JStr "secret")] eq_refl eq_refl eq_refl)).
  reflexivity.
Defined.

Lemma user_info_uses_chosen_token_witness :
  let r := Sample.envelope_response 200 [("userName", JStr "guest")] in
  (exists w1 : World,
     @Comtrade.get_user_info Sample.host Sample.client (Some "tk")
        (Sample.serving r) = (Ok (JObj [("userName", JStr "guest")]), w1) /\
     requested w1 =
       [("http://comtrade.un.org/api/getUserInfo", [("token", PyStr "tk")])]) /\
  @Comtrade.get_user_info Sample.host Sample.client None Sample.bare
    = (Raise (ValueError "Cannot get user info without a token"), Sample.bare).
Proof.
  intros r. split.
  - apply (proj2 (@user_info_uses_chosen_token Sample.host Sample.client
                    (Some "tk") (Sample.serving r))
             (mkSession "http://comtrade.un.org/api/" 3) "tk" r
             (JObj [("userName", JStr "guest")]));
      try reflexivity.
    now left.
  - apply (proj1 (@user_info_uses_chosen_token Sample.host Sample.client
                    None Sample.bare)); reflexivity.
Defined.

Lemma strip_exact_token : strip Sample.exact_token = Sample.exact_token.
Proof. vm_compute. reflexivity. Qed.

Lemma read_exact_token :
  universal_newlines Sample.exact_token = Sample.exact_token.
Proof. vm_compute. reflexivity. Qed.

Lemma saved_token_is_read_back_witness :
  exists w1 : World,
    @Comtrade.save_subuser_token Sample.host Sample.client "a@b.org"
       (Sample.serving (Sample.token_response (JStr Sample.exact_token)))
      = (Ok tt, w1) /\
    @Comtrade.__init__ Sample.host "http://comtrade.un.org/api/" None 3 w1 =
      (Ok (Comtrade.mk "http://comtrade.un.org/api/" (Some Sample.exact_token)
             (Some (mkSession "http://comtrade.un.org/api/" 3))), w1).
Proof.
  destruct (@saved_token_is_read_back Sample.host Sample.client
              (mkSession "http://comtrade.un.org/api/" 3) "a@b.org"
              Sample.exact_token "http://comtrade.un.org/api/" 3
              (Sample.serving (Sample.token_response (JStr Sample.exact_token)))
              (Sample.token_response (JStr Sample.exact_token))
              [("token", JStr Sample.exact_token)])
    as (w1 & Hsave & _ & _ & Hinit); try reflexivity.
  exists w1. split; [exact Hsave |].
  rewrite read_exact_token, strip_exact_token in Hinit. exact Hinit.
Defined.

Lemma failed_save_and_the_token_file_witness :
  exists w1 : World,
    @Comtrade.save_subuser_token Sample.host Sample.client "a@b.org"
       (Sample.serving (Sample.token_response JNull))
      = (Raise (TypeError "write() argument must be str"), w1) /\
    files w1 !! "/home/user/.comtraderc" = Some "".
Proof.
  destruct (proj2 (@failed_save_and_the_token_file Sample.host Sample.client
                     (mkSession "http://comtrade.un.org/api/" 3) "a@b.org"
                     "http://comtrade.un.org/api/" 3
                     (Sample.serving (Sample.token_response JNull))
                     (Sample.token_response JNull) [("token", JNull)]
                     eq_refl eq_refl eq_refl eq_refl)
              JNull eq_refl)
    as (w1 & Hsave & Hfile & _).
  - intros v. discriminate.
  - exists w1. split; [exact Hsave | exact Hfile].
Defined.

Lemma environment_token_hides_token_file_witness :
  (@Comtrade.__init__ Sample.host "http://comtrade.un.org/api/" None 3
     (Sample.with_env Sample.exact_token)).1 =
  (@Comtrade.__init__ Sample.host "http://comtrade.un.org/api/" None 3
     (mkWorld {[ "COMTRADE_TOKEN" := Sample.exact_token ]}
        {[ "/home/user/.comtraderc" := "abc" ]} Sample.no_remote [] [] [])).1.
Proof.
  apply (@environment_token_hides_token_file Sample.host
           "http://comtrade.un.org/api/" Sample.exact_token 3
           (Sample.with_env Sample.exact_token)
           {[ "/home/user/.comtraderc" := "abc" ]}).
  apply lookup_singleton_eq.
Defined.

Lemma get_bulk_errors_witness :
  let resp := Response.mk 200 "<html>busy</html>" None
                "http://comtrade.un.org/api/get/bulk/C/A/2015/4/HS" in
  (@Comtrade.get_bulk Sample.tabular Sample.archive Sample.host Sample.client
     "C" "A" "2015" "4" "HS" None (Sample.serving resp)).1 = Raise BadZipFile.
Proof.
  intros resp.
  destruct (@get_bulk_errors Sample.tabular Sample.archive Sample.host
              Sample.client (mkSession "http://comtrade.un.org/api/" 3)
              "C" "A" "2015" "4" "HS" None (Sample.serving resp) resp
              eq_refl eq_refl)
    as (_ & _ & Hzip & _).
  apply Hzip; reflexivity.
Defined.

Lemma padded_token_file_accepted_witness :
  let txt := "  " +:+ Sample.exact_token
             +:+ String (ascii_of_nat 13) (String Sample.newline "") in
  @Comtrade.__init__ Sample.host "http://comtrade.un.org/api/" None 3
     (Sample.with_token_file txt) =
    (Ok (Comtrade.mk "http://comtrade.un.org/api/" (Some Sample.exact_token)
           (Some (mkSession "http://comtrade.un.org/api/" 3))),
     Sample.with_token_file txt).
Proof.
  intros txt.
  apply (@padded_token_file_accepted Sample.host "http://comtrade.un.org/api/"
           "  " Sample.exact_token
           (String (ascii_of_nat 13) (String Sample.newline "")) 3
           (Sample.with_token_file txt)).
  - apply lookup_empty.
  - apply lookup_singleton_eq.
  - reflexivity.
  - reflexivity.
  - apply read_exact_token.
  - apply strip_exact_token.
  - apply exact_token_length.
Defined.
